(** * Workflow execution engine and scheduler

    A shallow embedding of the workflow "run now" route
    (POST, executeWorkflow, buildExecutionGraph, executeNode and the node
    handlers, updateExecutionStatus), of the SlackService it calls, and of
    the WorkflowScheduler class (scheduleWorkflow, unscheduleWorkflow,
    executeScheduledWorkflow, runWorkflow and its private copies of the
    engine).

    Conventions of the embedding:
    - JavaScript values are the inductive [value]; an object literal is an
      association list in property order, spread and property assignment
      are [spread] and [obj_set];
    - asynchronous code is run in program order: [M A] is a state monad
      over the [World] (clock, random source, Slack client, database
      tables, effect trace) whose outcome is a returned value, a thrown
      JavaScript value, or fuel exhaustion of the recursive visit; the
      promise that the run-now route starts and does not await is returned
      next to the route's answer ([Route.Background]) and run afterwards
      by [Route.background];
    - [console.log] and [console.error] output is not modelled;
    - the [Record<string, string[]>] that buildExecutionGraph fills is the
      object literal it is in the source: its own properties are a
      [gmap string (list string)], and a key that is not an own property is
      looked up on the prototype ([Graph], [graph_get]). *)

From stdpp Require Import gmap strings list fin_maps infinite.
From Stdlib Require Import ZArith DecimalString.

#[local] Set Warnings "-register-all".

(** ** JavaScript values *)

Inductive value : Type :=
| VUndefined
| VNull
| VBool (b : bool)
| VNum (n : Z)
| VStr (s : string)
| VIso (t : Z)                          (* new Date(t).toISOString() *)
| VArr (l : list value)
| VObj (fields : list (string * value)).

Abbreviation obj := (list (string * value)).

(** ToBoolean: what [||], [if] and [!] test. *)
Definition truthy (v : value) : bool :=
  match v with
  | VUndefined | VNull => false
  | VBool b => b
  | VNum n => negb (n =? 0)%Z
  | VStr s => negb (String.eqb s "")
  | VIso _ | VArr _ | VObj _ => true
  end.

(** [a || b] *)
Definition js_or (a b : value) : value := if truthy a then a else b.

Fixpoint obj_get (k : string) (o : obj) : value :=
  match o with
  | [] => VUndefined
  | (k', v) :: o' => if String.eqb k k' then v else obj_get k o'
  end.

(** [o.k = v] inside a literal or a spread: an existing property keeps its
    position, a new one goes last. *)
Fixpoint obj_set (k : string) (v : value) (o : obj) : obj :=
  match o with
  | [] => [(k, v)]
  | (k', v') :: o' =>
      if String.eqb k k' then (k, v) :: o' else (k', v') :: obj_set k v o'
  end.

Definition obj_has (k : string) (o : obj) : bool :=
  existsb (fun kv => String.eqb k kv.1) o.

(** [{ ...a, ...b }]: shallow merge, the properties of [b] win. *)
Definition spread (a b : obj) : obj :=
  fold_left (fun acc kv => obj_set kv.1 kv.2 acc) b a.

(** [v?.k] and [v.k] on a value that may be null or undefined. *)
Definition opt_get (v : value) (k : string) : value :=
  match v with
  | VObj o => obj_get k o
  | _ => VUndefined
  end.

(** [String.prototype.includes] *)
Fixpoint includes (needle hay : string) : bool :=
  String.prefix needle hay ||
  match hay with
  | EmptyString => false
  | String _ hay' => includes needle hay'
  end.

(** ** Thrown values *)

Inductive exn : Type :=
| ErrorObj (message : string)           (* an instance of Error *)
| Thrown (v : value).                   (* any other thrown value *)

(** [error instanceof Error ? error.message : 'Unknown error'] *)
Definition caught_message (e : exn) : string :=
  match e with
  | ErrorObj message => message
  | Thrown _ => "Unknown error"
  end.

(** [error.message], read without a guard. *)
Definition message_of (e : exn) : value :=
  match e with
  | ErrorObj message => VStr message
  | Thrown v => opt_get v "message"
  end.

(** ** Persisted records *)

Record Node := mkNode {
  nodeId : string;
  type : string;
  title : string;
  config : value;
}.

Record Edge := mkEdge {
  sourceId : string;
  targetId : string;
}.

Record Workflow := mkWorkflow {
  isActive : bool;
  schedule : option string;
  nodes : list Node;
  edges : list Edge;
}.

Record Execution := mkExecution {
  workflowId : string;
  status : string;
  input : obj;
  output : option value;
  error : option string;
  startedAt : Z;
  completedAt : option Z;
}.

(** ** The Slack Web API client, as the service sees it *)

Record PostArgs := mkPostArgs {
  pa_channel : value;
  pa_text : value;
  pa_blocks : value;
  pa_thread_ts : value;
}.

Inductive PostOutcome : Type :=
| PostResult (ok : bool) (ts : value) (err : value)
| PostThrows (e : exn).

Record SlackConfig := mkSlackConfig {
  botToken : string;
  defaultChannel : string;
}.

(** ** The scheduler's process-local state *)

(** A node-cron ScheduledTask: the expression and callback it was created
    with (the callback is [() => executeScheduledWorkflow(workflowId)], kept
    as the identifier it closes over) and whether its timer is running. *)
Record CronTask := mkCronTask {
  task_expr : string;
  task_workflowId : string;
  task_running : bool;
}.

(** interface ScheduledWorkflow; [sw_task] is the handle of the task in
    [tasks]. *)
Record ScheduledWorkflow := mkScheduledWorkflow {
  sw_id : string;
  sw_workflowId : string;
  sw_schedule : string;
  sw_task : nat;
}.

(** ** The world *)

Inductive Event : Type :=
| EvSleep (requested : value) (ms : Z)  (* setTimeout(resolve, requested) *)
| EvPost (a : PostArgs)                 (* client.chat.postMessage(a) *)
| EvCreate (id : string) (st : string)  (* db.execution.create *)
| EvUpdate (id : string) (st : string). (* db.execution.update *)

Record World := mkWorld {
  now : Z;                              (* the clock, in ms *)
  random : nat -> Z;                    (* Math.random() * 2^53, per draw *)
  drawn : nat;
  client : option (PostArgs -> PostOutcome);
  slackConfig : option SlackConfig;
  workflows : gmap string Workflow;
  executions : gmap string Execution;
  scheduledWorkflows : gmap string ScheduledWorkflow;
  tasks : list CronTask;
  trace : list Event;
}.

Definition set_now (t : Z) (w : World) : World :=
  mkWorld t (random w) (drawn w) (client w) (slackConfig w)
          (workflows w) (executions w) (scheduledWorkflows w) (tasks w)
          (trace w).

Definition set_drawn (n : nat) (w : World) : World :=
  mkWorld (now w) (random w) n (client w) (slackConfig w)
          (workflows w) (executions w) (scheduledWorkflows w) (tasks w)
          (trace w).

Definition set_executions (ex : gmap string Execution) (w : World) : World :=
  mkWorld (now w) (random w) (drawn w) (client w) (slackConfig w)
          (workflows w) ex (scheduledWorkflows w) (tasks w) (trace w).

Definition set_scheduledWorkflows (m : gmap string ScheduledWorkflow)
    (w : World) : World :=
  mkWorld (now w) (random w) (drawn w) (client w) (slackConfig w)
          (workflows w) (executions w) m (tasks w) (trace w).

Definition set_tasks (ts : list CronTask) (w : World) : World :=
  mkWorld (now w) (random w) (drawn w) (client w) (slackConfig w)
          (workflows w) (executions w) (scheduledWorkflows w) ts (trace w).

Definition emit (ev : Event) (w : World) : World :=
  mkWorld (now w) (random w) (drawn w) (client w) (slackConfig w)
          (workflows w) (executions w) (scheduledWorkflows w) (tasks w)
          (trace w ++ [ev]).

(** ** The monad of effects *)

Inductive outcome (A : Type) : Type :=
| Ret (a : A)
| Throw (e : exn)
| OutOfFuel.
Arguments Ret {A} a.
Arguments Throw {A} e.
Arguments OutOfFuel {A}.

Definition M (A : Type) : Type := World -> outcome A * World.

Definition ret {A} (a : A) : M A := fun w => (Ret a, w).

Definition throw {A} (e : exn) : M A := fun w => (Throw e, w).

Definition out_of_fuel {A} : M A := fun w => (OutOfFuel, w).

(** A computation without effects that returned or threw. *)
Definition lift {A} (o : outcome A) : M A := fun w => (o, w).

Definition bind {A B} (m : M A) (k : A -> M B) : M B :=
  fun w =>
    match m w with
    | (Ret a, w') => k a w'
    | (Throw e, w') => (Throw e, w')
    | (OutOfFuel, w') => (OutOfFuel, w')
    end.

(** [try { m } catch (error) { h error }] *)
Definition try_catch {A} (m : M A) (h : exn -> M A) : M A :=
  fun w =>
    match m w with
    | (Throw e, w') => h e w'
    | r => r
    end.

Notation "'let*' x ':=' m 'in' k" := (bind m (fun x => k))
  (at level 10, x name, m at level 100, k at level 200).

Definition get_world : M World := fun w => (Ret w, w).

Definition modify (f : World -> World) : M unit := fun w => (Ret tt, f w).

(** [new Date()] as an instant, [new Date().toISOString()] as a value. *)
Definition new_Date : M Z := fun w => (Ret (now w), w).

Definition iso_now : M value := fun w => (Ret (VIso (now w)), w).

(** [Math.random()], as the integer numerator over 2^53. *)
Definition Math_random : M Z :=
  fun w => (Ret (random w (drawn w)), set_drawn (S (drawn w)) w).

(** The delay a Node.js timer applies to a requested delay that is a
    number: one that is not between 1 and 2^31-1 is replaced by 1. A delay
    that is not a number is first coerced to one ([after *= 1]); that
    coercion is not modelled, and such a delay counts as 1 ms. *)
Definition timer_ms (requested : value) : Z :=
  match requested with
  | VNum n => if ((1 <=? n) && (n <=? 2147483647))%Z then n else 1%Z
  | _ => 1%Z
  end.

(** [await new Promise(resolve => setTimeout(resolve, requested))] *)
Definition sleep (requested : value) : M unit :=
  modify (fun w =>
    emit (EvSleep requested (timer_ms requested))
         (set_now (now w + timer_ms requested)%Z w)).

(** ** Plain objects used as maps

    [const graph = {}] is an ordinary object. A read [graph[key]] of a key
    that is not an own property goes to the prototype, which is
    Object.prototype until [graph['__proto__'] = []] (the assignment that
    buildExecutionGraph makes for a node whose identifier is '__proto__')
    replaces it by that new array. *)

(** The methods every object inherits from Object.prototype, and those an
    array inherits from Array.prototype (ECMAScript 2023). *)
Definition Object_prototype_methods : list string :=
  ["constructor"; "__defineGetter__"; "__defineSetter__"; "hasOwnProperty";
   "__lookupGetter__"; "__lookupSetter__"; "isPrototypeOf";
   "propertyIsEnumerable"; "toString"; "valueOf"; "toLocaleString"].

Definition Array_prototype_methods : list string :=
  ["constructor"; "at"; "concat"; "copyWithin"; "fill"; "find"; "findIndex";
   "findLast"; "findLastIndex"; "lastIndexOf"; "pop"; "push"; "reverse";
   "shift"; "unshift"; "slice"; "sort"; "splice"; "includes"; "indexOf";
   "join"; "keys"; "entries"; "values"; "forEach"; "filter"; "flat";
   "flatMap"; "map"; "every"; "some"; "reduce"; "reduceRight";
   "toLocaleString"; "toString"; "toReversed"; "toSorted"; "toSpliced";
   "with"].

Definition is_method (names : list string) (key : string) : bool :=
  existsb (String.eqb key) names.
Arguments is_method : simpl never.

(** The graph object: its own properties, each an array of target
    identifiers, and its prototype, [None] for Object.prototype and
    [Some elements] for the array installed through '__proto__'. *)
Record Graph := mkGraph {
  own : gmap string (list string);
  proto : option (list string);
}.

Definition empty_graph : Graph := mkGraph ∅ None.

(** What [graph[key]] evaluates to. *)
Inductive Property : Type :=
| POwn (targets : list string)          (* an own property *)
| PPrototypeArray (elements : list string) (* graph.__proto__, an array *)
| PObjectPrototype                      (* graph.__proto__, Object.prototype *)
| PMethod                               (* an inherited method *)
| PElement (s : string)                 (* an element of the prototype array *)
| PLength (n : nat)                     (* the length of the prototype array *)
| PUndefined.

(** The property key of array index [i]: its decimal numeral. *)
Definition index_key (i : nat) : string :=
  NilZero.string_of_uint (Nat.to_uint i).

Definition element_at (elements : list string) (key : string)
  : option string :=
  match List.find (fun i => String.eqb (index_key i) key)
                  (seq 0 (length elements)) with
  | Some i => elements !! i
  | None => None
  end.
Arguments element_at : simpl never.

Definition graph_get (graph : Graph) (key : string) : Property :=
  match own graph !! key with
  | Some targets => POwn targets
  | None =>
      if String.eqb key "__proto__" then
        match proto graph with
        | Some elements => PPrototypeArray elements
        | None => PObjectPrototype
        end
      else
        match proto graph with
        | None =>
            if is_method Object_prototype_methods key then PMethod
            else PUndefined
        | Some elements =>
            match element_at elements key with
            | Some s => PElement s
            | None =>
                if String.eqb key "length" then PLength (length elements)
                else if is_method (Array_prototype_methods ++
                                   Object_prototype_methods) key
                     then PMethod
                     else PUndefined
            end
        end
  end.

(** ToBoolean of [graph[key]]. *)
Definition truthy_property (p : Property) : bool :=
  match p with
  | POwn _ | PPrototypeArray _ | PObjectPrototype | PMethod => true
  | PElement s => negb (String.eqb s "")
  | PLength n => negb (Nat.eqb n 0)
  | PUndefined => false
  end.

(** [graph[key] = []]: '__proto__' is the accessor of Object.prototype,
    whose setter replaces the prototype; any other key becomes (or stays)
    an own property. *)
Definition graph_set_empty (graph : Graph) (key : string) : Graph :=
  if String.eqb key "__proto__" then mkGraph (own graph) (Some [])
  else mkGraph (<[key := []]> (own graph)) (proto graph).

(** What [for (const c of s)] iterates over for a string: its characters. *)
Fixpoint characters (s : string) : list string :=
  match s with
  | EmptyString => []
  | String c s' => String c EmptyString :: characters s'
  end.

(** ** Products in binary64

    With Math.random() the binary64 number r / 2^53, the product
    [Math.random() * 100] is the exact r * 100 / 2^53 rounded to 53
    significant bits, ties to even; [round_binary64 n] is that rounding on
    the numerator [n] over 2^53. *)
Definition round_binary64 (n : Z) : Z :=
  let s := (Z.log2 n - 52)%Z in
  if (s <=? 0)%Z then n
  else
    let q := (n / 2 ^ s)%Z in
    let r := (n mod 2 ^ s)%Z in
    let half := (2 ^ (s - 1))%Z in
    let q' := if (r <? half)%Z then q
              else if (half <? r)%Z then (q + 1)%Z
              else if Z.even q then q else (q + 1)%Z in
    (q' * 2 ^ s)%Z.

(** ** SlackService *)

Module SlackService.

Record SendResult := mkSendResult {
  success : bool;
  ts : value;
  send_error : value;
}.

Definition isConfigured : M bool :=
  fun w => (Ret (bool_decide (is_Some (client w)) &&
                 bool_decide (is_Some (slackConfig w))), w).

(** [await this.client.chat.postMessage(args)] *)
Definition postMessage (c : PostArgs -> PostOutcome) (args : PostArgs)
  : M (bool * value * value) :=
  fun w =>
    match c args with
    | PostResult ok t err => (Ret (ok, t, err), emit (EvPost args) w)
    | PostThrows e => (Throw e, emit (EvPost args) w)
    end.

Definition sendMessage (channel text blocks thread_ts : value)
  : M SendResult :=
  let* w := get_world in
  match client w, slackConfig w with
  | Some c, Some cfg =>
      try_catch
        (let channel' := js_or channel (VStr (defaultChannel cfg)) in
         let* result := postMessage c
                          (mkPostArgs channel' text blocks thread_ts) in
         match result with
         | (true, t, _) => ret (mkSendResult true t VUndefined)
         | (false, _, err) =>
             ret (mkSendResult false VUndefined
                               (js_or err (VStr "Unknown error")))
         end)
        (fun e =>
           ret (mkSendResult false VUndefined (VStr (caught_message e))))
  | _, _ =>
      ret (mkSendResult false VUndefined (VStr "Slack not configured"))
  end.

(** The other methods of the service. What the Web API client answers to
    [auth.test()] and [conversations.list()], the client that
    [new WebClient(token)] builds, and the runtime's string conversions are
    taken as given. *)

Inductive AuthOutcome : Type :=
| AuthResult (ok : bool) (team : value) (err : value)
| AuthThrows (e : exn).

Inductive ListOutcome : Type :=
| ListResult (ok : bool) (channels : option (list obj)) (err : value)
| ListThrows (e : exn).

Record TestResult := mkTestResult {
  test_success : bool;
  test_team : value;
  test_error : value;
}.

Record ChannelsResult := mkChannelsResult {
  channels_success : bool;
  channels_list : value;
  channels_error : value;
}.

Definition set_slack (c : option (PostArgs -> PostOutcome))
    (cfg : option SlackConfig) (w : World) : World :=
  mkWorld (now w) (random w) (drawn w) c cfg (workflows w) (executions w)
          (scheduledWorkflows w) (tasks w) (trace w).

Definition newline : string := String (Ascii.ascii_of_nat 10) EmptyString.

Section WithWebApi.
Variable new_WebClient : string -> PostArgs -> PostOutcome.
Variable auth_test : (PostArgs -> PostOutcome) -> AuthOutcome.
Variable conversations_list : (PostArgs -> PostOutcome) -> ListOutcome.
(** [`${v}`] for a value that is not a string, [s.toUpperCase()],
    [new Date(t).toLocaleString()] and [JSON.stringify(v, null, 2)]. *)
Variable ToString : value -> string.
Variable toUpperCase : string -> string.
Variable toLocaleString : Z -> string.
Variable JSON_stringify : value -> string.
(** The message of the TypeError raised by [v.toUpperCase()] on a value
    without that method. *)
Variable TypeError_message : value -> string.

Definition template (v : value) : string :=
  match v with
  | VStr s => s
  | _ => ToString v
  end.

(** [initialize(config)] *)
Definition initialize (config' : SlackConfig) : M unit :=
  modify (set_slack (Some (new_WebClient (botToken config')))
                    (Some config')).

(** [getConfig()] *)
Definition getConfig : M (bool * value) :=
  let* configured := isConfigured in
  let* w := get_world in
  ret (configured,
       match slackConfig w with
       | Some cfg => VStr (defaultChannel cfg)
       | None => VUndefined
       end).

(** [status.toUpperCase()]: a value without that method makes the call
    throw a TypeError. *)
Definition upper_status (status' : value) : option string :=
  match status' with
  | VStr s => Some (toUpperCase s)
  | VIso _ => Some (toUpperCase (ToString status'))
  | _ => None
  end.

Definition mrkdwn (text : string) : value :=
  VObj [("type", VStr "mrkdwn"); ("text", VStr text)].

Definition sendWorkflowNotification (workflowName status' details : value)
  : M SendResult :=
  let emoji :=
    match status' with
    | VStr "success" => "✅"
    | VStr "error" => "❌"
    | _ => "🔄"
    end in
  match upper_status status' with
  | None => throw (ErrorObj (TypeError_message status'))
  | Some upper =>
      let* t := new_Date in
      let blocks :=
        [VObj [("type", VStr "header");
               ("text", VObj [("type", VStr "plain_text");
                              ("text", VStr (emoji +:+
                                             " Workflow Notification"))])];
         VObj [("type", VStr "section");
               ("fields",
                VArr [mrkdwn ("*Workflow:*" +:+ newline +:+
                              template workflowName);
                      mrkdwn ("*Status:*" +:+ newline +:+ upper)])];
         VObj [("type", VStr "section");
               ("text", mrkdwn ("*Time:*" +:+ newline +:+
                                toLocaleString t))]] in
      let blocks' :=
        if truthy details then
          blocks ++
          [VObj [("type", VStr "section");
                 ("text", mrkdwn ("*Details:*" +:+ newline +:+ "```" +:+
                                  JSON_stringify details +:+ "```"))]]
        else blocks in
      sendMessage VUndefined
        (VStr (emoji +:+ " Workflow " +:+ template workflowName +:+ ": "
               +:+ upper))
        (VArr blocks') VUndefined
  end.

(** The three properties [getChannels] keeps of a channel. *)
Definition channel_summary (channel : obj) : value :=
  VObj [("id", obj_get "id" channel);
        ("name", obj_get "name" channel);
        ("is_private", obj_get "is_private" channel)].

Definition getChannels : M ChannelsResult :=
  let* w := get_world in
  match client w with
  | None =>
      ret (mkChannelsResult false VUndefined (VStr "Slack not configured"))
  | Some c =>
      match conversations_list c with
      | ListResult true channels _ =>
          ret (mkChannelsResult true
                 match channels with
                 | Some l => VArr (map channel_summary l)
                 | None => VUndefined
                 end
                 VUndefined)
      | ListResult false _ err =>
          ret (mkChannelsResult false VUndefined
                                (js_or err (VStr "Unknown error")))
      | ListThrows e =>
          ret (mkChannelsResult false VUndefined (VStr (caught_message e)))
      end
  end.

Definition testConnection : M TestResult :=
  let* w := get_world in
  match client w with
  | None => ret (mkTestResult false VUndefined (VStr "Slack not configured"))
  | Some c =>
      match auth_test c with
      | AuthResult true team _ =>
          ret (mkTestResult true (js_or team (VStr "Unknown Team"))
                            VUndefined)
      | AuthResult false _ err =>
          ret (mkTestResult false VUndefined
                            (js_or err (VStr "Authentication failed")))
      | AuthThrows e =>
          ret (mkTestResult false VUndefined
                 (VStr match e with
                       | ErrorObj message => message
                       | Thrown _ => "Connection failed"
                       end))
      end
  end.

End WithWebApi.

End SlackService.

(** ** Node handlers

    The route file and the WorkflowScheduler class each carry a copy of
    these handlers; the copies are the same text, so they are embedded
    once. *)

Module Handlers.

Definition executeAction (node : Node) (context : obj) : M obj :=
  let* _ := sleep (VNum 1000) in
  let* t := iso_now in
  ret [("action", VStr (title node));
       ("executed", VBool true);
       ("timestamp", t)].

Definition executeCondition (node : Node) (context : obj) : M obj :=
  let* _ := sleep (VNum 500) in
  let* r := Math_random in
  let* t := iso_now in
  ret [("condition", VStr (title node));
       ("result", VBool (2 ^ 52 <? r)%Z);
       ("timestamp", t)].

Definition executeDelay (node : Node) (context : obj) : M obj :=
  let delayMs := js_or (opt_get (config node) "delayMs") (VNum 2000) in
  let* _ := sleep delayMs in
  let* t := iso_now in
  ret [("delay", VStr (title node));
       ("delayed", VBool true);
       ("duration", delayMs);
       ("timestamp", t)].

Definition executeEmail (node : Node) (context : obj) : M obj :=
  let* _ := sleep (VNum 1500) in
  let* t := iso_now in
  ret [("email", VStr (title node));
       ("sent", VBool true);
       ("to", js_or (opt_get (config node) "to")
                    (VStr "unknown@example.com"));
       ("timestamp", t)].

(** [Math.floor(Math.random() * 100)] is the floor of the rounded product. *)
Definition executeDatabase (node : Node) (context : obj) : M obj :=
  let* _ := sleep (VNum 800) in
  let* r := Math_random in
  let* t := iso_now in
  ret [("database", VStr (title node));
       ("operation", VStr "SELECT");
       ("records", VNum (round_binary64 (r * 100) / 2 ^ 53)%Z);
       ("timestamp", t)].

Definition executeWebhook (node : Node) (context : obj) : M obj :=
  let* _ := sleep (VNum 1200) in
  let* t := iso_now in
  ret [("webhook", VStr (title node));
       ("url", js_or (opt_get (config node) "url")
                     (VStr "https://example.com/webhook"));
       ("status", VNum 200);
       ("timestamp", t)].

(** The two [forEach] callbacks of buildExecutionGraph:
    [graph[node.nodeId] = []] and
    [if (graph[edge.sourceId]) graph[edge.sourceId].push(edge.targetId)].
    The push appends to an own array, or to the prototype array when the
    source is '__proto__'; on any other truthy value (an inherited method,
    Object.prototype, a string, a number) [.push] is undefined and the
    call throws a TypeError. *)
Definition add_node (graph : Graph) (node : Node) : Graph :=
  graph_set_empty graph (nodeId node).

Definition add_edge (graph : Graph) (edge : Edge) : outcome Graph :=
  match graph_get graph (sourceId edge) with
  | POwn targets =>
      Ret (mkGraph (<[sourceId edge := targets ++ [targetId edge]]>
                      (own graph))
                   (proto graph))
  | PPrototypeArray elements =>
      Ret (mkGraph (own graph) (Some (elements ++ [targetId edge])))
  | property =>
      if truthy_property property then
        Throw (ErrorObj "graph[edge.sourceId].push is not a function")
      else Ret graph
  end.

(** [edges.forEach(...)]: the first callback that throws ends the loop. *)
Fixpoint add_edges (graph : Graph) (edges' : list Edge) : outcome Graph :=
  match edges' with
  | [] => Ret graph
  | edge :: rest =>
      match add_edge graph edge with
      | Ret graph' => add_edges graph' rest
      | other => other
      end
  end.

Definition buildExecutionGraph (nodes' : list Node) (edges' : list Edge)
  : outcome Graph :=
  add_edges (foldl add_node empty_graph nodes') edges'.

Definition getNodeById (nodeId' : string) (nodes' : list Node)
  : option Node :=
  find (fun node => String.eqb (nodeId node) nodeId') nodes'.

(** [const childNodes = graph[node.nodeId] || []] as the sequence that
    [for (const childNodeId of childNodes)] goes through; the loop throws a
    TypeError at once when the value is truthy and not iterable. *)
Definition children_of (graph : Graph) (key : string)
  : outcome (list string) :=
  match graph_get graph key with
  | POwn targets => Ret targets
  | PPrototypeArray elements => Ret elements
  | PElement s => Ret (characters s)
  | PUndefined => Ret []
  | PLength n =>
      if Nat.eqb n 0 then Ret []
      else Throw (ErrorObj "childNodes is not iterable")
  | PMethod | PObjectPrototype =>
      Throw (ErrorObj "childNodes is not iterable")
  end.

(** [for (const childNodeId of childNodes) { ... }] of executeNode, the
    recursive call abstracted as [visit]; [childResults] accumulates the
    pushes. [Object.values(graph)] are the own properties of the graph. *)
Fixpoint for_children (visit : Node -> obj -> M value)
    (graph : Graph) (context result : obj)
    (childNodes : list string) (childResults : list value)
  : M (list value) :=
  match childNodes with
  | [] => ret childResults
  | childNodeId :: rest =>
      match getNodeById childNodeId
              (if (0 <? size (own graph))%nat then [] else []) with
      | Some childNode =>
          let* childResult := visit childNode (spread context result) in
          for_children visit graph context result rest
                       (childResults ++ [childResult])
      | None =>
          for_children visit graph context result rest childResults
      end
  end.

End Handlers.

(** ** The database client, on the execution table *)

Module Db.

(** [db.execution.create({ data: { workflowId, status, input } })]: the
    store picks an unused id and stamps startedAt. *)
Definition execution_create (workflowId' status' : string) (input' : obj)
  : M string :=
  fun w =>
    let id := fresh (dom (executions w)) in
    (Ret id,
     emit (EvCreate id status')
       (set_executions
          (<[id := mkExecution workflowId' status' input' None None
                               (now w) None]> (executions w)) w)).

(** A property of [data] that is [undefined] leaves the column as it is;
    [null] clears it. *)
Definition error_column (v : value) (old : option string)
  : option (option string) :=
  match v with
  | VUndefined => Some old
  | VNull => Some None
  | VStr s => Some (Some s)
  | _ => None                           (* not a string: rejected *)
  end.

Definition output_column (v : value) (old : option value) : option value :=
  match v with
  | VUndefined => old
  | VNull => None
  | _ => Some v
  end.

Definition completedAt_column (v : option Z) (old : option Z) : option Z :=
  match v with
  | None => old
  | Some t => Some t
  end.

(** [db.execution.update({ where: { id }, data: { status, error, output,
    completedAt } })]; it throws when no record has that id. *)
Definition execution_update (id status' : string) (error' output' : value)
    (completedAt' : option Z) : M unit :=
  fun w =>
    match executions w !! id with
    | None => (Throw (ErrorObj "Record to update not found."), w)
    | Some e =>
        match error_column error' (error e) with
        | None => (Throw (ErrorObj "Invalid value provided."), w)
        | Some err =>
            (Ret tt,
             emit (EvUpdate id status')
               (set_executions
                  (<[id := mkExecution (workflowId e) status' (input e)
                             (output_column output' (output e)) err
                             (startedAt e)
                             (completedAt_column completedAt'
                                                 (completedAt e))]>
                     (executions w)) w))
        end
    end.

End Db.

(** ** The run-now route *)

Module Route.
Import Handlers.

Definition executeSlack (node : Node) (context : obj) : M obj :=
  let* _ := sleep (VNum 1500) in
  let channel := js_or (opt_get (config node) "channel")
                       (VStr "#general") in
  let message := js_or (opt_get (config node) "message")
                       (VStr ("Workflow executed: " +:+ title node)) in
  let* configured := SlackService.isConfigured in
  if configured then
    try_catch
      (let* result := SlackService.sendMessage channel message
                        (opt_get (config node) "blocks") VUndefined in
       let* t := iso_now in
       ret [("slack", VStr (title node));
            ("sent", VBool true);
            ("channel", channel);
            ("message", message);
            ("realMessage", VBool (SlackService.success result));
            ("timestamp", js_or (SlackService.ts result) t)])
      (fun e =>
         let* t := iso_now in
         ret [("slack", VStr (title node));
              ("sent", VBool false);
              ("channel", channel);
              ("message", message);
              ("error", VStr (caught_message e));
              ("timestamp", t)])
  else
    let* t := iso_now in
    ret [("slack", VStr (title node));
         ("sent", VBool true);
         ("channel", channel);
         ("message", message);
         ("simulated", VBool true);
         ("timestamp", t)].

(** The [switch (node.type)] of executeNode. *)
Definition dispatch (node : Node) (context : obj) : M obj :=
  if String.eqb (type node) "trigger" then
    let* t := iso_now in
    ret [("triggered", VBool true); ("timestamp", t)]
  else if String.eqb (type node) "action" then executeAction node context
  else if String.eqb (type node) "condition" then
    executeCondition node context
  else if String.eqb (type node) "delay" then executeDelay node context
  else if String.eqb (type node) "email" then executeEmail node context
  else if String.eqb (type node) "database" then
    executeDatabase node context
  else if String.eqb (type node) "slack" then executeSlack node context
  else if String.eqb (type node) "webhook" then executeWebhook node context
  else ret [("executed", VBool true); ("type", VStr (type node))].

Fixpoint executeNode (fuel : nat) (node : Node)
    (graph : Graph) (context : obj) : M value :=
  match fuel with
  | O => out_of_fuel
  | S fuel' =>
      let* result := dispatch node context in
      let* childNodes := lift (children_of graph (nodeId node)) in
      let* childResults :=
        for_children (fun childNode context' =>
                        executeNode fuel' childNode graph context')
                     graph context result childNodes [] in
      ret (VObj (obj_set "children" (VArr childResults) result))
  end.

Definition updateExecutionStatus (executionId status' : string)
    (error' output' : value) : M unit :=
  let* t := new_Date in
  Db.execution_update executionId status' error' output'
    (if String.eqb status' "running" then None else Some t).

(** The [try] block of executeWorkflow. *)
Definition executeWorkflow_try (fuel : nat) (workflow : Workflow)
    (executionId : string) : M unit :=
  match find (fun node => String.eqb (type node) "trigger")
             (nodes workflow) with
  | None => throw (ErrorObj "No trigger node found in workflow")
  | Some triggerNode =>
      let* executionGraph :=
        lift (buildExecutionGraph (nodes workflow) (edges workflow)) in
      let* result := executeNode fuel triggerNode executionGraph [] in
      updateExecutionStatus executionId "completed" VNull result
  end.

Definition executeWorkflow (fuel : nat) (workflow : Workflow)
    (executionId : string) : M unit :=
  try_catch
    (executeWorkflow_try fuel workflow executionId)
    (fun e =>
       updateExecutionStatus executionId "failed"
                             (VStr (caught_message e)) VUndefined).

Record Response := mkResponse {
  http_status : Z;
  body : obj;
}.

(** A promise that is started and not awaited: a rejection of it is not
    seen by the caller. *)
Definition detached (m : M unit) : M unit :=
  fun w =>
    match m w with
    | (Throw _, w') => (Ret tt, w')
    | r => r
    end.

(** [executeWorkflow(workflow, execution.id).catch(...)], the promise POST
    starts without awaiting it: what the handler leaves behind when it
    answers. *)
Record Background := mkBackground {
  bg_workflow : Workflow;
  bg_executionId : string;
}.

Definition background (fuel : nat) (b : Background) : M unit :=
  detached
    (try_catch (executeWorkflow fuel (bg_workflow b) (bg_executionId b))
       (fun e =>
          detached
            (updateExecutionStatus (bg_executionId b) "failed"
                                   (message_of e) VUndefined))).

(** The answer of POST, and the run it started, if any. *)
Definition POST (id : string) : M (Response * option Background) :=
  try_catch
    (let* w := get_world in
     match workflows w !! id with
     | None =>
         ret (mkResponse 404 [("error", VStr "Workflow not found")], None)
     | Some workflow =>
         if negb (isActive workflow) then
           ret (mkResponse 400 [("error", VStr "Workflow is not active")],
                None)
         else
           let* execution := Db.execution_create id "running" [] in
           ret (mkResponse 200
                  [("executionId", VStr execution);
                   ("status", VStr "running");
                   ("message", VStr "Workflow execution started")],
                Some (mkBackground workflow execution))
     end)
    (fun e =>
       ret (mkResponse 500
              [("error", VStr "Failed to start workflow execution")],
            None)).

(** A request, and then the run it left behind, to its end. *)
Definition POST_and_background (fuel : nat) (id : string) : M Response :=
  let* answer := POST id in
  let* _ := match answer.2 with
            | Some b => background fuel b
            | None => ret tt
            end in
  ret answer.1.

End Route.

(** ** WorkflowScheduler *)

Module Scheduler.
Import Handlers.

(** node-cron's [cron.schedule(expr, callback, { scheduled: false })]: a
    new task, not yet started; the result is its handle. *)
Definition cron_schedule (expr workflowId' : string) : M nat :=
  fun w =>
    (Ret (length (tasks w)),
     set_tasks (tasks w ++ [mkCronTask expr workflowId' false]) w).

Definition set_running (b : bool) (t : CronTask) : CronTask :=
  mkCronTask (task_expr t) (task_workflowId t) b.

(** [task.start()] and [task.stop()] *)
Definition task_start (task : nat) : M unit :=
  modify (fun w => set_tasks (alter (set_running true) task (tasks w)) w).

Definition task_stop (task : nat) : M unit :=
  modify (fun w => set_tasks (alter (set_running false) task (tasks w)) w).

Definition unscheduleWorkflow (workflowId' : string) : M unit :=
  let* w := get_world in
  match scheduledWorkflows w !! workflowId' with
  | Some scheduled =>
      let* _ := task_stop (sw_task scheduled) in
      modify (fun w =>
        set_scheduledWorkflows (delete workflowId' (scheduledWorkflows w)) w)
  | None => ret tt
  end.

Section WithCron.
(** node-cron's [cron.validate] *)
Variable validate : string -> bool.

Definition scheduleWorkflow (workflowId' schedule' : string) : M unit :=
  if negb (validate schedule') then
    throw (ErrorObj ("Invalid cron expression: " +:+ schedule'))
  else
    let* _ := unscheduleWorkflow workflowId' in
    let* task := cron_schedule schedule' workflowId' in
    let* _ := modify (fun w =>
      set_scheduledWorkflows
        (<[workflowId' :=
             mkScheduledWorkflow workflowId' workflowId' schedule' task]>
           (scheduledWorkflows w)) w) in
    task_start task.

Definition updateWorkflowSchedule (workflowId' : string)
    (schedule' : option string) : M unit :=
  match schedule' with
  | Some s => if negb (String.eqb s "")
              then scheduleWorkflow workflowId' s
              else unscheduleWorkflow workflowId'
  | None => unscheduleWorkflow workflowId'
  end.

(** [initialize()]: the rows of [db.workflow.findMany({ where: { isActive:
    true, schedule: { not: null } } })], then the loop over them. *)
Definition findManyScheduled (w : World) : list (string * string) :=
  omap (fun kv : string * Workflow =>
          if isActive kv.2 then
            match schedule kv.2 with
            | Some s => Some (kv.1, s)
            | None => None
            end
          else None)
       (map_to_list (workflows w)).

Fixpoint initialize_loop (rows : list (string * string)) : M unit :=
  match rows with
  | [] => ret tt
  | (id, s) :: rows' =>
      let* _ := if negb (String.eqb s "") then scheduleWorkflow id s
                else ret tt in
      initialize_loop rows'
  end.

Definition initialize : M unit :=
  let* w := get_world in
  initialize_loop (findManyScheduled w).

End WithCron.

(** The [switch (node.type)] of the scheduler's executeNode: it has no
    'slack' case. *)
Definition dispatch (node : Node) (context : obj) : M obj :=
  if String.eqb (type node) "trigger" then
    let* t := iso_now in
    ret [("triggered", VBool true); ("timestamp", t)]
  else if String.eqb (type node) "action" then executeAction node context
  else if String.eqb (type node) "condition" then
    executeCondition node context
  else if String.eqb (type node) "delay" then executeDelay node context
  else if String.eqb (type node) "email" then executeEmail node context
  else if String.eqb (type node) "database" then
    executeDatabase node context
  else if String.eqb (type node) "webhook" then executeWebhook node context
  else ret [("executed", VBool true); ("type", VStr (type node))].

Fixpoint executeNode (fuel : nat) (node : Node)
    (graph : Graph) (context : obj) : M value :=
  match fuel with
  | O => out_of_fuel
  | S fuel' =>
      let* result := dispatch node context in
      let* childNodes := lift (children_of graph (nodeId node)) in
      let* childResults :=
        for_children (fun childNode context' =>
                        executeNode fuel' childNode graph context')
                     graph context result childNodes [] in
      ret (VObj (obj_set "children" (VArr childResults) result))
  end.

(** The [try] block of runWorkflow. *)
Definition runWorkflow_try (fuel : nat) (workflow : Workflow)
    (executionId : string) : M unit :=
  match find (fun node => String.eqb (type node) "trigger")
             (nodes workflow) with
  | None => throw (ErrorObj "No trigger node found in workflow")
  | Some triggerNode =>
      let* executionGraph :=
        lift (buildExecutionGraph (nodes workflow) (edges workflow)) in
      let* result := executeNode fuel triggerNode executionGraph [] in
      let* t := new_Date in
      Db.execution_update executionId "completed" VUndefined result (Some t)
  end.

Definition runWorkflow (fuel : nat) (workflow : Workflow)
    (executionId : string) : M unit :=
  try_catch
    (runWorkflow_try fuel workflow executionId)
    (fun e =>
       let* t := new_Date in
       Db.execution_update executionId "failed" (VStr (caught_message e))
                           VUndefined (Some t)).

Definition executeScheduledWorkflow (fuel : nat) (workflowId' : string)
  : M unit :=
  try_catch
    (let* w := get_world in
     match workflows w !! workflowId' with
     | None => ret tt
     | Some workflow =>
         if negb (isActive workflow) then ret tt
         else
           let* execution :=
             Db.execution_create workflowId' "running"
               [("triggeredBy", VStr "scheduler")] in
           runWorkflow fuel workflow execution
     end)
    (fun e => ret tt).

(** [for (const scheduled of this.scheduledWorkflows.values())
    scheduled.task.stop()], then [clear()]. *)
Definition shutdown : M unit :=
  let* w := get_world in
  let* _ := modify (fun w =>
    set_tasks
      (foldr (fun kv ts => alter (set_running false) (sw_task kv.2) ts)
             (tasks w) (map_to_list (scheduledWorkflows w))) w) in
  modify (set_scheduledWorkflows ∅).

End Scheduler.

(** ** The Slack routes *)

Module SlackSendRoute.

Section WithRuntime.
Variable ToString : value -> string.
Variable toUpperCase : string -> string.
Variable toLocaleString : Z -> string.
Variable JSON_stringify : value -> string.
Variable TypeError_message : value -> string.

(** POST /api/integrations/slack/send, on the fields of the request body. *)
Definition POST (channel message workflowName status' details : value)
  : M Route.Response :=
  try_catch
    (if negb (truthy message) then
       ret (Route.mkResponse 400 [("error", VStr "Message is required")])
     else
       let* configured := SlackService.isConfigured in
       if negb configured then
         ret (Route.mkResponse 400
                [("error",
                  VStr "Slack is not configured. Please set up Slack integration first.")])
       else
         let* result :=
           if truthy workflowName && truthy status' then
             SlackService.sendWorkflowNotification ToString toUpperCase
               toLocaleString JSON_stringify TypeError_message
               workflowName status' details
           else
             SlackService.sendMessage channel message VUndefined VUndefined
         in
         if SlackService.success result then
           ret (Route.mkResponse 200
                  [("success", VBool true);
                   ("message", VStr "Message sent successfully");
                   ("timestamp", SlackService.ts result)])
         else
           ret (Route.mkResponse 500
                  [("error", js_or (SlackService.send_error result)
                                   (VStr "Failed to send message"))]))
    (fun e =>
       ret (Route.mkResponse 500
              [("error", VStr "Failed to send Slack message")])).

End WithRuntime.

End SlackSendRoute.

Module SlackConfigRoute.

Section WithWebApi.
Variable new_WebClient : string -> PostArgs -> PostOutcome.
Variable auth_test : (PostArgs -> PostOutcome) -> SlackService.AuthOutcome.
Variable conversations_list
  : (PostArgs -> PostOutcome) -> SlackService.ListOutcome.
Variable ToString : value -> string.

(** POST of the configuration route, on a body whose fields, when present,
    are strings. *)
Definition POST (botToken' defaultChannel' : option string)
  : M Route.Response :=
  try_catch
    (match botToken', defaultChannel' with
     | Some token, Some channel =>
         if String.eqb token "" || String.eqb channel "" then
           ret (Route.mkResponse 400
                  [("error",
                    VStr "Bot token and default channel are required")])
         else
           let* _ := SlackService.initialize new_WebClient
                       (mkSlackConfig token channel) in
           let* testResult := SlackService.testConnection auth_test in
           if SlackService.test_success testResult then
             ret (Route.mkResponse 200
                    [("success", VBool true);
                     ("message",
                      VStr "Slack integration configured successfully");
                     ("team", SlackService.test_team testResult)])
           else
             ret (Route.mkResponse 400
                    [("error",
                      VStr ("Slack configuration failed: " +:+
                            SlackService.template ToString
                              (SlackService.test_error testResult)))])
     | _, _ =>
         ret (Route.mkResponse 400
                [("error",
                  VStr "Bot token and default channel are required")])
     end)
    (fun e =>
       ret (Route.mkResponse 500
              [("error", VStr "Failed to configure Slack integration")])).

Definition GET : M Route.Response :=
  try_catch
    (let* config' := SlackService.getConfig in
     let* configured := SlackService.isConfigured in
     let* channels :=
       if configured then SlackService.getChannels conversations_list
       else ret (SlackService.mkChannelsResult false VUndefined
                   (VStr "Not configured")) in
     let* configured' := SlackService.isConfigured in
     ret (Route.mkResponse 200
            [("config", VObj [("isConfigured", VBool config'.1);
                              ("defaultChannel", config'.2)]);
             ("channels",
              if SlackService.channels_success channels
              then SlackService.channels_list channels else VArr []);
             ("isConfigured", VBool configured')]))
    (fun e =>
       ret (Route.mkResponse 500
              [("error", VStr "Failed to fetch Slack configuration")])).

End WithWebApi.

End SlackConfigRoute.

(** ** Notions used by the statements *)

(** The targets of the edges leaving [id], in edge order, duplicates
    kept. *)
Definition targets_of (id : string) (edges' : list Edge) : list string :=
  map targetId (filter (fun edge => sourceId edge = id) edges').

(** The handles of the running timers whose callback runs workflow [id]. *)
Definition active_timers (id : string) (w : World) : list nat :=
  List.filter
    (fun i => match tasks w !! i with
              | Some t => task_running t && String.eqb (task_workflowId t) id
              | None => false
              end)
    (seq 0 (length (tasks w))).

(** Every running timer is the one its workflow is bound to. *)
Definition sched_ok (w : World) : Prop :=
  forall i t, tasks w !! i = Some t -> task_running t = true ->
    exists sw, scheduledWorkflows w !! task_workflowId t = Some sw /\
               sw_task sw = i.

(** The statuses written to execution [id], oldest first. *)
Fixpoint status_history (id : string) (tr : list Event) : list string :=
  match tr with
  | [] => []
  | EvCreate id' st :: tr' =>
      if String.eqb id id' then st :: status_history id tr'
      else status_history id tr'
  | EvUpdate id' st :: tr' =>
      if String.eqb id id' then st :: status_history id tr'
      else status_history id tr'
  | _ :: tr' => status_history id tr'
  end.

Definition terminal (st : string) : Prop := st = "completed" \/ st = "failed".

(** Between runs, every execution was written exactly twice: created
    running, then moved to a terminal status, which its record holds with
    completedAt set. *)
Definition lifecycle_ok (w : World) : Prop :=
  forall id,
    match executions w !! id with
    | None => status_history id (trace w) = []
    | Some e =>
        exists st, terminal st /\
                   status_history id (trace w) = ["running"; st] /\
                   status e = st /\ is_Some (completedAt e)
    end.

(** What reaches the execution table: a manual run, a fire of a scheduled
    timer, and (from the other routes) any rewrite of the workflow table. *)
Inductive Op : Type :=
| ManualRun (id : string)
| TimerFire (id : string)
| SetWorkflows (wfs : gmap string Workflow).

Definition set_workflows (wfs : gmap string Workflow) (w : World) : World :=
  mkWorld (now w) (random w) (drawn w) (client w) (slackConfig w)
          wfs (executions w) (scheduledWorkflows w) (tasks w) (trace w).

Definition run_op (fuel : nat) (o : Op) (w : World) : World :=
  match o with
  | ManualRun id => (Route.POST_and_background fuel id w).2
  | TimerFire id => (Scheduler.executeScheduledWorkflow fuel id w).2
  | SetWorkflows wfs => set_workflows wfs w
  end.

Definition run_ops (fuel : nat) (ops : list Op) (w : World) : World :=
  foldl (fun w o => run_op fuel o w) w ops.

(** The scheduler keeps its timers in step with its bindings: every running
    timer is the one its workflow is bound to, and every binding holds a
    running timer created for that workflow with the bound expression. *)
Definition sched_inv (w : World) : Prop :=
  sched_ok w /\
  forall id sw, scheduledWorkflows w !! id = Some sw ->
    tasks w !! sw_task sw = Some (mkCronTask (sw_schedule sw) id true).

(** The public operations of the scheduler. *)
Inductive SchedOp : Type :=
| OpSchedule (id expr : string)
| OpUnschedule (id : string)
| OpUpdate (id : string) (expr : option string)
| OpInitialize
| OpShutdown.

Definition run_sched_op (validate : string -> bool) (o : SchedOp)
    (w : World) : World :=
  match o with
  | OpSchedule id expr => (Scheduler.scheduleWorkflow validate id expr w).2
  | OpUnschedule id => (Scheduler.unscheduleWorkflow id w).2
  | OpUpdate id expr =>
      (Scheduler.updateWorkflowSchedule validate id expr w).2
  | OpInitialize => (Scheduler.initialize validate w).2
  | OpShutdown => (Scheduler.shutdown w).2
  end.

Definition run_sched_ops (validate : string -> bool) (ops : list SchedOp)
    (w : World) : World :=
  foldl (fun w o => run_sched_op validate o w) w ops.

(** ** Sample data, and notions used by the proofs *)

Definition world0 : World :=
  mkWorld 0 (fun _ => 0%Z) 0 None None ∅ ∅ ∅ [] [].

Definition nodeT : Node := mkNode "T" "trigger" "Start" (VObj []).
Definition nodeB : Node := mkNode "B" "action" "First" (VObj []).
Definition nodeC : Node := mkNode "C" "action" "Second" (VObj []).

Definition edgeTB : Edge := mkEdge "T" "B".
Definition edgeTC : Edge := mkEdge "T" "C".

Definition worldSlackDown : World :=
  mkWorld 0 (fun _ => 0%Z) 0
          (Some (fun _ => PostResult false VUndefined
                            (VStr "channel_not_found")))
          (Some (mkSlackConfig "xoxb-token" "#general"))
          ∅ ∅ ∅ [] [].

Definition nodeS : Node :=
  mkNode "S" "slack" "Notify"
         (VObj [("channel", VStr "#ops"); ("message", VStr "deploy done")]).

Definition nodeD0 : Node :=
  mkNode "D" "delay" "Wait" (VObj [("delayMs", VNum 0)]).

Definition nodeD100 : Node :=
  mkNode "D" "delay" "Wait" (VObj [("delayMs", VNum 100)]).

(** The delay read literally from the specification: config.delayMs when
    present (0 included), 2000 only when it is absent. *)
Definition stated_delay (cfg : value) : option Z :=
  match opt_get cfg "delayMs" with
  | VUndefined => Some 2000%Z
  | VNum n => Some n
  | _ => None
  end.

(** The delay with JavaScript's reading of [||]: config.delayMs when it is
    a number from 1 to 2^31-1, 2000 when it is absent or falsy (0, null,
    false, the empty string). *)
Definition amended_delay (cfg : value) : option Z :=
  let v := opt_get cfg "delayMs" in
  if truthy v then
    match v with
    | VNum n => if ((1 <=? n) && (n <=? 2147483647))%Z then Some n else None
    | _ => None
    end
  else Some 2000%Z.

Definition workflowT : Workflow := mkWorkflow true None [nodeB; nodeT] [].

Definition workflowNoTrigger : Workflow :=
  mkWorkflow true None [nodeB; nodeC] [].

(** A world in which execution e1 of workflow wf1 was just created. *)
Definition worldRunning : World :=
  mkWorld 0 (fun _ => 0%Z) 0 None None
          {["wf1" := workflowT]}
          {["e1" := mkExecution "wf1" "running" [] None None 0 None]}
          ∅ [] [EvCreate "e1" "running"].

Definition workflowInactive : Workflow :=
  mkWorkflow false None [nodeT; nodeB] [edgeTB].

Definition worldInactive : World :=
  mkWorld 0 (fun _ => 0%Z) 0 None None
          {["wf1" := workflowInactive]} ∅ ∅ [] [].

(** The number of fields of an expression, separated by blanks.
    [five_fields] tells the expressions that have five of them; it is also
    the stand-in for a validator used to instantiate the statements. *)
Fixpoint count_fields (in_field : bool) (s : string) : nat :=
  match s with
  | EmptyString => 0
  | String c s' =>
      if Ascii.eqb c (Ascii.ascii_of_nat 32) then count_fields false s'
      else (if in_field then 0 else 1) + count_fields true s'
  end.

Definition five_fields (s : string) : bool :=
  Nat.eqb (count_fields false s) 5.

Definition worldScheduled : World :=
  (Scheduler.scheduleWorkflow five_fields "wf1" "*/5 * * * *" world0).2.

(** The timers after the binding of [id], if any, was stopped. *)
Definition stop_bound (id : string) (w : World) : list CronTask :=
  match scheduledWorkflows w !! id with
  | Some sw => alter (Scheduler.set_running false) (sw_task sw) (tasks w)
  | None => tasks w
  end.

(** The world after a successful scheduleWorkflow. *)
Definition scheduled (id e : string) (w : World) : World :=
  set_tasks (stop_bound id w ++ [mkCronTask e id true])
    (set_scheduledWorkflows
       (<[id := mkScheduledWorkflow id id e (length (tasks w))]>
          (scheduledWorkflows w)) w).

Definition worldActive : World :=
  mkWorld 0 (fun _ => 0%Z) 0 None None {["wf1" := workflowT]} ∅ ∅ [] [].

(** One run: a record with an unused id is created running and then moved,
    once, to a terminal status with completedAt set; nothing else is
    written to the execution table. *)
Definition ran (w w' : World) : Prop :=
  exists id rec st,
    executions w !! id = None /\
    executions w' = <[id := rec]> (executions w) /\
    trace w' = trace w ++ [EvCreate id "running"; EvUpdate id st] /\
    terminal st /\ status rec = st /\ is_Some (completedAt rec).

Definition opsDemo : list Op :=
  [ManualRun "wf1"; TimerFire "wf1";
   SetWorkflows {["wf1" := workflowNoTrigger]}; ManualRun "wf1";
   ManualRun "unknown"].

(** The timers after every binding in [l] was stopped, as shutdown does. *)
Definition stop_all (l : list (string * ScheduledWorkflow))
    (ts : list CronTask) : list CronTask :=
  foldr (fun kv ts => alter (Scheduler.set_running false) (sw_task kv.2) ts)
        ts l.

(** A Slack client that accepts every message, and stand-ins for the
    runtime's string conversions, used to instantiate the statements. *)
Definition worldSlackUp : World :=
  mkWorld 0 (fun _ => 0%Z) 0
          (Some (fun _ => PostResult true (VStr "1700000000.000100")
                            VUndefined))
          (Some (mkSlackConfig "xoxb-token" "#alerts"))
          ∅ ∅ ∅ [] [].

Definition sample_ToString (v : value) : string := "[object Object]".
Definition sample_toUpperCase (s : string) : string := s.
Definition sample_toLocaleString (t : Z) : string := "1/1/1970, 12:00:00 AM".
Definition sample_JSON_stringify (v : value) : string := "{}".
Definition sample_TypeError (v : value) : string :=
  "status.toUpperCase is not a function".

Definition workflowNightly : Workflow :=
  mkWorkflow true (Some "0 2 * * *") [nodeT] [].

Definition workflowBroken : Workflow :=
  mkWorkflow true (Some "every night") [nodeT] [].

Definition worldNightly : World :=
  mkWorld 0 (fun _ => 0%Z) 0 None None
          {["wf1" := workflowNightly; "wf2" := workflowInactive]}
          ∅ ∅ [] [].

Definition worldBroken : World :=
  mkWorld 0 (fun _ => 0%Z) 0 None None
          {["wf1" := workflowNightly; "wf3" := workflowBroken]}
          ∅ ∅ [] [].

(** Keys that an object literal reads from Object.prototype. *)
Definition inherited (key : string) : bool :=
  String.eqb key "__proto__" || is_method Object_prototype_methods key.
Arguments inherited : simpl never.

(** Node and edge lists on which the graph object behaves as a map: no
    node is named '__proto__', and an edge source that is not a declared
    node names nothing that Object.prototype holds. *)
Definition plain_graph (nodes' : list Node) (edges' : list Edge) : Prop :=
  Forall (fun node => nodeId node <> "__proto__") nodes' /\
  Forall (fun edge => sourceId edge ∈ map nodeId nodes' \/
                      inherited (sourceId edge) = false) edges'.

(** The first node of type trigger: [workflow.nodes.find(...)]. *)
Definition first_trigger (workflow : Workflow) : option Node :=
  find (fun node => String.eqb (type node) "trigger") (nodes workflow).

(** The record that a run of [workflow] started at time [t] leaves in the
    place of [rec]: failed, with its output untouched, when there is no
    trigger node or the graph cannot be built; completed, with the result
    of the trigger node as output, otherwise. [cleared] tells whether the
    write of a success clears the error column (the route passes
    [error: null], the scheduler leaves the column out). *)
Definition run_record (cleared : bool) (workflow : Workflow)
    (rec : Execution) (t : Z) : Execution :=
  let failed message :=
    mkExecution (workflowId rec) "failed" (input rec) (output rec)
                (Some message) (startedAt rec) (Some t) in
  match first_trigger workflow with
  | None => failed "No trigger node found in workflow"
  | Some _ =>
      match Handlers.buildExecutionGraph (nodes workflow)
                                         (edges workflow) with
      | Ret _ =>
          mkExecution (workflowId rec) "completed" (input rec)
            (Some (VObj [("triggered", VBool true); ("timestamp", VIso t);
                         ("children", VArr [])]))
            (if cleared then None else error rec) (startedAt rec) (Some t)
      | Throw e => failed (caught_message e)
      | OutOfFuel => rec
      end
  end.

(** An edge whose source is not a declared node and names a method of
    Object.prototype, and a workflow that has it. *)
Definition edgeHazard : Edge := mkEdge "constructor" "T".

Definition workflowHazard : Workflow :=
  mkWorkflow true None [nodeT] [edgeHazard].

Definition worldHazard : World :=
  mkWorld 0 (fun _ => 0%Z) 0 None None {["wf1" := workflowHazard]} ∅ ∅ [] [].

Definition workflowTB : Workflow :=
  mkWorkflow true None [nodeT; nodeB] [edgeTB].

(** A stand-in with the property of node-cron's validator that a sixth,
    leading field for the seconds is accepted as well. *)
Definition five_or_six_fields (s : string) : bool :=
  Nat.eqb (count_fields false s) 5 || Nat.eqb (count_fields false s) 6.

(** [s.toLowerCase()] on the letters A to Z. *)
Definition lower_ascii (c : Ascii.ascii) : Ascii.ascii :=
  let n := Ascii.nat_of_ascii c in
  if (65 <=? n)%nat && (n <=? 90)%nat then Ascii.ascii_of_nat (n + 32)
  else c.

Fixpoint toLowerCase (s : string) : string :=
  match s with
  | EmptyString => EmptyString
  | String c s' => String (lower_ascii c) (toLowerCase s')
  end.

(** A draw of Math.random() whose product with 100 is, before rounding,
    just under 24. *)
Definition worldDraw : World :=
  mkWorld 0 (fun _ => 2161727821137838%Z) 0 None None ∅ ∅ ∅ [] [].

(** ** Basic facts *)

Lemma obj_get_set_eq (k : string) (v : value) (o : obj) :
  obj_get k (obj_set k v o) = v.
Proof.
  induction o as [|[k' v'] o IH]; simpl.
  - by rewrite String.eqb_refl.
  - destruct (String.eqb k k') eqn:E; simpl.
    + by rewrite String.eqb_refl.
    + by rewrite E.
Qed.

(** ** buildExecutionGraph *)

Section BuildGraph.
Import Handlers.

Lemma init_own (nodes' : list Node) (g : Graph) (id : string) :
  own (foldl add_node g nodes') !! id =
    if bool_decide (id ∈ map nodeId nodes' /\ id <> "__proto__")
    then Some [] else own g !! id.
Proof.
  revert g. induction nodes' as [|n ns IH]; intros g; simpl.
  - done.
  - rewrite IH. unfold add_node, graph_set_empty.
    destruct (String.eqb (nodeId n) "__proto__") eqn:E; simpl.
    + apply String.eqb_eq in E.
      case_bool_decide as H1; case_bool_decide as H2; try done; exfalso.
      * apply H2. destruct H1 as [H1 ?]. split; [by right|done].
      * destruct H2 as [[->|H2]%elem_of_cons Hne]; [done|].
        by apply H1.
    + apply String.eqb_neq in E.
      destruct (decide (id = nodeId n)) as [->|Hne].
      * rewrite lookup_insert_eq.
        rewrite (bool_decide_eq_true_2 (nodeId n ∈ nodeId n :: _ /\ _));
          [|split; [by left|done]].
        by case_bool_decide.
      * rewrite lookup_insert_ne; [|done].
        case_bool_decide as H1; case_bool_decide as H2; try done; exfalso.
        -- apply H2. destruct H1 as [H1 ?]. split; [by right|done].
        -- destruct H2 as [[->|H2]%elem_of_cons Hp]; [done|].
           by apply H1.
Qed.

Lemma init_proto (nodes' : list Node) (g : Graph) :
  proto (foldl add_node g nodes') =
    if bool_decide ("__proto__" ∈ map nodeId nodes')
    then Some [] else proto g.
Proof.
  revert g. induction nodes' as [|n ns IH]; intros g; simpl.
  - done.
  - rewrite IH. unfold add_node, graph_set_empty.
    destruct (String.eqb (nodeId n) "__proto__") eqn:E; simpl.
    + apply String.eqb_eq in E. rewrite E.
      rewrite (bool_decide_eq_true_2 ("__proto__" ∈ "__proto__" :: _));
        [|by left].
      by case_bool_decide.
    + apply String.eqb_neq in E.
      case_bool_decide as H1; case_bool_decide as H2; try done; exfalso.
      * apply H2. by right.
      * apply elem_of_cons in H2 as [H2|H2]; [by symmetry in H2|done].
Qed.

(** The only exception buildExecutionGraph raises. *)
Lemma add_edge_throws (g : Graph) (edge : Edge) (e : exn) :
  add_edge g edge = Throw e ->
  e = ErrorObj "graph[edge.sourceId].push is not a function".
Proof.
  unfold add_edge.
  destruct (graph_get g (sourceId edge)) as [ts|els| | |s|n|]; simpl;
    try done; try (by intros [= <-]).
  - destruct (negb (String.eqb s "")); [by intros [= <-]|done].
  - destruct (negb (Nat.eqb n 0)); [by intros [= <-]|done].
Qed.

Lemma add_edge_fuel (g : Graph) (edge : Edge) : add_edge g edge <> OutOfFuel.
Proof.
  unfold add_edge.
  destruct (graph_get g (sourceId edge)) as [ts|els| | |s|n|]; simpl;
    try done.
  - by destruct (negb (String.eqb s "")).
  - by destruct (negb (Nat.eqb n 0)).
Qed.

(** An edge adds no own property and keeps the kind of the prototype. *)
Lemma add_edge_keys (g g' : Graph) (edge : Edge) :
  add_edge g edge = Ret g' ->
  dom (own g') = dom (own g) /\ (is_Some (proto g') <-> is_Some (proto g)).
Proof.
  unfold add_edge, graph_get.
  destruct (own g !! sourceId edge) as [ts|] eqn:Hown.
  - intros [= <-]. simpl. split; [|done].
    apply dom_insert_lookup_L. by eexists.
  - destruct (String.eqb (sourceId edge) "__proto__").
    + destruct (proto g) as [els|] eqn:Hp; simpl.
      * intros [= <-]. simpl. split; [done|]. split; eauto.
      * done.
    + destruct (proto g) as [els|] eqn:Hp; simpl.
      * destruct (element_at els (sourceId edge)) as [s|]; simpl.
        { destruct (negb (String.eqb s "")); [done|].
          intros [= <-]. by rewrite Hp. }
        destruct (String.eqb (sourceId edge) "length"); simpl.
        { destruct (negb (Nat.eqb (length els) 0)); [done|].
          intros [= <-]. by rewrite Hp. }
        match goal with |- context [is_method ?a ?b] =>
          destruct (is_method a b) end; simpl; [done|].
        intros [= <-]. by rewrite Hp.
      * match goal with |- context [is_method ?a ?b] =>
          destruct (is_method a b) end; simpl; [done|].
        intros [= <-]. by rewrite Hp.
Qed.

Lemma add_edges_keys (edges' : list Edge) (g g' : Graph) :
  add_edges g edges' = Ret g' ->
  dom (own g') = dom (own g) /\ (is_Some (proto g') <-> is_Some (proto g)).
Proof.
  revert g. induction edges' as [|e es IH]; intros g; simpl.
  - by intros [= <-].
  - destruct (add_edge g e) as [g1| |] eqn:He; try done.
    intros H. apply IH in H as [H1 H2].
    apply add_edge_keys in He as [H3 H4].
    split; [congruence|]. by rewrite H2.
Qed.

Lemma add_edges_throws (edges' : list Edge) (g : Graph) (e : exn) :
  add_edges g edges' = Throw e ->
  e = ErrorObj "graph[edge.sourceId].push is not a function".
Proof.
  revert g. induction edges' as [|ed es IH]; intros g; simpl; [done|].
  destruct (add_edge g ed) as [g1|e1|] eqn:He.
  - apply IH.
  - intros [= <-]. by apply add_edge_throws in He.
  - done.
Qed.

Lemma add_edges_fuel (edges' : list Edge) (g : Graph) :
  add_edges g edges' <> OutOfFuel.
Proof.
  revert g. induction edges' as [|ed es IH]; intros g; simpl; [done|].
  destruct (add_edge g ed) as [g1|e1|] eqn:He; [apply IH|done|].
  by apply add_edge_fuel in He.
Qed.

(** add_edge on a graph whose prototype is Object.prototype. *)
Lemma add_edge_object (g : Graph) (e : Edge) :
  proto g = None ->
  add_edge g e =
    match own g !! sourceId e with
    | Some targets =>
        Ret (mkGraph (<[sourceId e := targets ++ [targetId e]]> (own g))
                     None)
    | None =>
        if inherited (sourceId e)
        then Throw (ErrorObj "graph[edge.sourceId].push is not a function")
        else Ret g
    end.
Proof.
  intros Hp. unfold add_edge, graph_get, inherited. rewrite Hp.
  destruct (own g !! sourceId e) as [ts|]; [done|].
  destruct (String.eqb (sourceId e) "__proto__"); [done|]. simpl.
  by destruct (is_method Object_prototype_methods (sourceId e)).
Qed.

(** On a graph whose prototype is Object.prototype, edges whose source is
    an own property or names nothing inherited behave as on a map. *)
Lemma add_edges_plain (edges' : list Edge) (g : Graph) :
  proto g = None ->
  Forall (fun edge => is_Some (own g !! sourceId edge) \/
                      inherited (sourceId edge) = false) edges' ->
  exists g',
    add_edges g edges' = Ret g' /\ proto g' = None /\
    forall id, own g' !! id =
                 (fun targets => targets ++ targets_of id edges') <$>
                 own g !! id.
Proof.
  revert g. induction edges' as [|e es IH]; intros g Hp Hes.
  - exists g. split; [done|]. split; [done|]. intros id.
    unfold targets_of. simpl. destruct (own g !! id); simpl; [|done].
    by rewrite app_nil_r.
  - apply Forall_cons in Hes as [He Hes]. simpl.
    assert (exists g1,
              add_edge g e = Ret g1 /\ proto g1 = None /\
              forall id, own g1 !! id =
                if decide (sourceId e = id)
                then (fun targets => targets ++ [targetId e]) <$> own g !! id
                else own g !! id) as (g1 & -> & Hp1 & Hown1).
    { rewrite (add_edge_object g e Hp).
      destruct (own g !! sourceId e) as [ts|] eqn:Hown.
      - eexists. split; [done|]. split; [done|]. intros id. simpl.
        destruct (decide (sourceId e = id)) as [<-|Hne].
        + by rewrite lookup_insert_eq, Hown.
        + by rewrite lookup_insert_ne.
      - destruct He as [[? ?]|He]; [done|]. rewrite He.
        exists g. split; [done|]. split; [done|].
        intros id. destruct (decide (sourceId e = id)) as [<-|]; [|done].
        by rewrite Hown. }
    destruct (IH g1 Hp1) as (g' & Hrun & Hp' & Hown').
    { eapply Forall_impl; [exact Hes|]. intros e' [Hs|Hs]; [|by right].
      left. rewrite Hown1.
      destruct (decide (sourceId e = sourceId e')); [|done].
      by apply fmap_is_Some. }
    exists g'. split; [done|]. split; [done|]. intros id.
    rewrite Hown', Hown1. unfold targets_of. rewrite filter_cons.
    destruct (decide (sourceId e = id)) as [Heq|Hne].
    + destruct (own g !! id); simpl; [|done]. by rewrite <- app_assoc.
    + done.
Qed.

(** On such a graph the edges throw exactly when one of them has a
    source that is not an own property and names something inherited. *)
Lemma add_edges_hazard (edges' : list Edge) (g : Graph) :
  proto g = None ->
  (add_edges g edges' =
     Throw (ErrorObj "graph[edge.sourceId].push is not a function") <->
   Exists (fun edge => own g !! sourceId edge = None /\
                       inherited (sourceId edge) = true) edges').
Proof.
  revert g. induction edges' as [|e es IH]; intros g Hp; simpl.
  - split; [done|]. intros H. by apply Exists_nil in H.
  - rewrite Exists_cons, (add_edge_object g e Hp).
    destruct (own g !! sourceId e) as [ts|] eqn:Hown.
    + rewrite IH by done. simpl.
      assert (forall id, <[sourceId e := ts ++ [targetId e]]> (own g) !! id
                         = None <-> own g !! id = None) as Hnone.
      { intros id. destruct (decide (sourceId e = id)) as [<-|Hne].
        - rewrite lookup_insert_eq, Hown. done.
        - by rewrite lookup_insert_ne. }
      split.
      * intros H. right. eapply Exists_impl; [exact H|].
        intros e' [H1 H2]. split; [by apply Hnone|done].
      * intros [[? _]|H]; [done|]. eapply Exists_impl; [exact H|].
        intros e' [H1 H2]. split; [by apply Hnone|done].
    + destruct (inherited (sourceId e)) eqn:Hi.
      * split; [|done]. intros _. by left.
      * rewrite IH by done. split; [by right|].
        intros [[_ ?]|H]; [done|done].
Qed.

End BuildGraph.

Lemma buildExecutionGraph_plain (nodes' : list Node) (edges' : list Edge) :
  plain_graph nodes' edges' ->
  exists g,
    Handlers.buildExecutionGraph nodes' edges' = Ret g /\
    proto g = None /\
    forall id, own g !! id =
                 if bool_decide (id ∈ map nodeId nodes')
                 then Some (targets_of id edges') else None.
Proof.
  intros [Hn He]. unfold Handlers.buildExecutionGraph.
  assert ("__proto__" ∉ map nodeId nodes') as Hno.
  { intros Hin. apply list_elem_of_fmap in Hin as (n & Heq & Hin).
    rewrite Forall_forall in Hn. by apply (Hn n). }
  assert (forall id, own (foldl Handlers.add_node empty_graph nodes') !! id
                     = if bool_decide (id ∈ map nodeId nodes')
                       then Some [] else None) as Hinit.
  { intros id. rewrite init_own. simpl. rewrite lookup_empty.
    case_bool_decide as H1; case_bool_decide as H2; try done; exfalso.
    - apply H2, H1.
    - apply H1. split; [done|]. by intros ->. }
  destruct (add_edges_plain edges'
              (foldl Handlers.add_node empty_graph nodes'))
    as (g & Hrun & Hp & Hown).
  - rewrite init_proto. by rewrite bool_decide_eq_false_2.
  - eapply Forall_impl; [exact He|]. intros e [Hs|Hs]; [|by right].
    left. rewrite Hinit. by rewrite bool_decide_eq_true_2.
  - exists g. split; [done|]. split; [done|]. intros id.
    rewrite Hown, Hinit. by case_bool_decide.
Qed.

Lemma Graph_eq (g1 g2 : Graph) :
  (forall id, own g1 !! id = own g2 !! id) -> proto g1 = proto g2 ->
  g1 = g2.
Proof.
  destruct g1 as [o1 p1], g2 as [o2 p2]. simpl. intros Ho ->.
  f_equal. by apply map_eq.
Qed.

(** C5. Nodes [T] and the single edge constructor -> T, whose source is
    not a declared node. The claim describes the graph { T: [] }; the
    function does not return: [graph['constructor']] is the method that the
    object literal inherits from Object.prototype, the guard
    [if (graph[edge.sourceId])] takes it for an adjacency list, and the
    push throws a TypeError. The same edge from a source that names
    nothing inherited is dropped, as the guard intends. *)
Theorem buildExecutionGraph_failing_input :
  targets_of "T" [edgeHazard] = [] /\
  graph_get (foldl Handlers.add_node empty_graph [nodeT]) "constructor"
    = PMethod /\
  Handlers.buildExecutionGraph [nodeT] [edgeHazard] =
    Throw (ErrorObj "graph[edge.sourceId].push is not a function") /\
  Handlers.buildExecutionGraph [nodeT] [mkEdge "X" "T"] =
    Ret (mkGraph {["T" := []]} None).
Proof. vm_compute. done. Qed.

(** On node and edge lists that keep clear of the prototype,
    buildExecutionGraph returns, and maps every declared node identifier to
    the targets of the edges that have it as source, in edge declaration
    order, parallel edges kept. *)
Lemma buildExecutionGraph_adjacency
    (nodes' : list Node) (edges' : list Edge) (id : string) :
  plain_graph nodes' edges' ->
  id ∈ map nodeId nodes' ->
  exists g,
    Handlers.buildExecutionGraph nodes' edges' = Ret g /\
    own g !! id = Some (targets_of id edges') /\
    graph_get g id = POwn (targets_of id edges').
Proof.
  intros Hplain Hin.
  destruct (buildExecutionGraph_plain nodes' edges' Hplain)
    as (g & Hrun & Hp & Hown).
  exists g. split; [done|].
  assert (own g !! id = Some (targets_of id edges')) as Hid.
  { by rewrite Hown, bool_decide_eq_true_2. }
  split; [done|]. unfold graph_get. by rewrite Hid.
Qed.

Example targets_of_duplicate :
  targets_of "T" [edgeTB; edgeTC; edgeTB] = ["B"; "C"; "B"].
Proof. reflexivity. Qed.

(** ** Handlers and the visit *)

Lemma for_children_skips (visit : Node -> obj -> M value)
    (graph : Graph) (context result : obj)
    (childNodes : list string) (childResults : list value) :
  Handlers.for_children visit graph context result childNodes childResults
  = ret childResults.
Proof.
  induction childNodes as [|c cs IH]; simpl; [done|].
  by destruct (0 <? size (own graph))%nat; simpl.
Qed.

(** executeSlack always returns, and whatever the client did, the result
    says [sent: true] and has no [error] property: sendMessage turns every
    failure into a returned [{ success: false }], so the catch branch of
    executeSlack is never entered. *)
Lemma executeSlack_returns (node : Node) (context : obj) (w : World) :
  exists o w', Route.executeSlack node context w = (Ret o, w') /\
               obj_get "sent" o = VBool true /\
               obj_has "error" o = false.
Proof.
  destruct w as [t rnd d [c|] [cfg|] wfs exs sws tks tr];
    unfold Route.executeSlack, SlackService.sendMessage,
      SlackService.postMessage, SlackService.isConfigured;
    cbv [bind try_catch get_world sleep modify iso_now ret emit set_now
         client slackConfig bool_decide is_Some_dec decide_rel andb];
    try (eexists _, _; split; [reflexivity|done]).
  destruct (c _) as [[] ts err|e];
    (eexists _, _; split; [reflexivity|done]).
Qed.

Lemma route_dispatch_returns (node : Node) (context : obj) (w : World) :
  exists result w', Route.dispatch node context w = (Ret result, w').
Proof.
  unfold Route.dispatch.
  repeat (destruct (String.eqb (type node) _));
    try (eexists _, _; reflexivity).
  destruct (executeSlack_returns node context w) as (o & w' & -> & _).
  by eexists _, _.
Qed.

Lemma scheduler_dispatch_returns (node : Node) (context : obj) (w : World) :
  exists result w', Scheduler.dispatch node context w = (Ret result, w').
Proof.
  unfold Scheduler.dispatch.
  repeat (destruct (String.eqb (type node) _)); eexists _, _; reflexivity.
Qed.

(** With any fuel at all, executeNode runs the node's own handler and then
    reads the adjacency of the node. When that is not iterable the loop
    throws; otherwise every child lookup goes through an empty node list,
    so the recursive call is never reached: the result is the handler's
    with an empty [children], in the world the handler left. *)
Lemma route_executeNode_run (fuel : nat) (node : Node)
    (graph : Graph) (context : obj) (w : World) :
  exists result w',
    Route.dispatch node context w = (Ret result, w') /\
    Route.executeNode (S fuel) node graph context w =
      match Handlers.children_of graph (nodeId node) with
      | Throw e => (Throw e, w')
      | _ => (Ret (VObj (obj_set "children" (VArr []) result)), w')
      end.
Proof.
  destruct (route_dispatch_returns node context w) as (result & w' & Hd).
  exists result, w'. split; [done|].
  simpl. unfold bind at 1. rewrite Hd. unfold bind at 1, lift.
  assert (Handlers.children_of graph (nodeId node) <> OutOfFuel) as Hf.
  { unfold Handlers.children_of.
    destruct (graph_get graph (nodeId node)) as [| | | | |[|n]|]; done. }
  destruct (Handlers.children_of graph (nodeId node)) as [cs|e|];
    [|done|done].
  unfold bind. by rewrite for_children_skips.
Qed.

Lemma scheduler_executeNode_run (fuel : nat) (node : Node)
    (graph : Graph) (context : obj) (w : World) :
  exists result w',
    Scheduler.dispatch node context w = (Ret result, w') /\
    Scheduler.executeNode (S fuel) node graph context w =
      match Handlers.children_of graph (nodeId node) with
      | Throw e => (Throw e, w')
      | _ => (Ret (VObj (obj_set "children" (VArr []) result)), w')
      end.
Proof.
  destruct (scheduler_dispatch_returns node context w) as (result & w' & Hd).
  exists result, w'. split; [done|].
  simpl. unfold bind at 1. rewrite Hd. unfold bind at 1, lift.
  assert (Handlers.children_of graph (nodeId node) <> OutOfFuel) as Hf.
  { unfold Handlers.children_of.
    destruct (graph_get graph (nodeId node)) as [| | | | |[|n]|]; done. }
  destruct (Handlers.children_of graph (nodeId node)) as [cs|e|];
    [|done|done].
  unfold bind. by rewrite for_children_skips.
Qed.

(** The only exception executeNode raises. *)
Lemma children_of_throws (graph : Graph) (key : string) (e : exn) :
  Handlers.children_of graph key = Throw e ->
  e = ErrorObj "childNodes is not iterable".
Proof.
  unfold Handlers.children_of.
  destruct (graph_get graph key) as [| | | | |[|n]|]; try done;
    by intros [= <-].
Qed.

(** The adjacency of an own property is the array it holds. *)
Lemma children_of_own (graph : Graph) (key : string) (targets : list string) :
  own graph !! key = Some targets ->
  Handlers.children_of graph key = Ret targets.
Proof.
  intros H. unfold Handlers.children_of, graph_get. by rewrite H.
Qed.

(** On a built graph, the adjacency of a declared node can be iterated. *)
Lemma children_of_declared (nodes' : list Node) (edges' : list Edge)
    (g : Graph) (node : Node) :
  Handlers.buildExecutionGraph nodes' edges' = Ret g ->
  node ∈ nodes' ->
  exists targets, Handlers.children_of g (nodeId node) = Ret targets.
Proof.
  unfold Handlers.buildExecutionGraph. intros Hrun Hin.
  apply add_edges_keys in Hrun as [Hdom Hproto].
  assert (nodeId node ∈ map nodeId nodes') as Hid.
  { apply list_elem_of_fmap. by exists node. }
  destruct (decide (nodeId node = "__proto__")) as [Heq|Hne].
  - assert (is_Some (proto g)) as [els Hels].
    { apply Hproto. rewrite init_proto.
      rewrite bool_decide_eq_true_2 by (by rewrite <- Heq). by eexists. }
    unfold Handlers.children_of, graph_get. rewrite Heq.
    destruct (own g !! "__proto__") as [ts|]; [by eexists|].
    simpl. rewrite Hels. by eexists.
  - assert (is_Some (own g !! nodeId node)) as [ts Hts].
    { apply elem_of_dom. rewrite Hdom. apply elem_of_dom.
      rewrite init_own. rewrite bool_decide_eq_true_2 by done.
      by eexists. }
    exists ts. by apply children_of_own.
Qed.

(** C1. The graph T -> [B, C]: buildExecutionGraph returns it, the
    adjacency of T is [B; C], and both copies of executeNode return T's own
    result with [children: []]; no handler of B or C ran (the clock and the
    trace are untouched). *)
Theorem executeNode_children_failing_input :
  exists graph,
    Handlers.buildExecutionGraph [nodeT; nodeB; nodeC] [edgeTB; edgeTC]
      = Ret graph /\
    own graph !! "T" = Some ["B"; "C"] /\
    Handlers.children_of graph "T" = Ret ["B"; "C"] /\
    Route.executeNode 3 nodeT graph [] world0 =
      (Ret (VObj [("triggered", VBool true); ("timestamp", VIso 0);
                  ("children", VArr [])]), world0) /\
    Scheduler.executeNode 3 nodeT graph [] world0 =
      (Ret (VObj [("triggered", VBool true); ("timestamp", VIso 0);
                  ("children", VArr [])]), world0).
Proof. eexists. split; [reflexivity|]. vm_compute. done. Qed.
(** C4. Slack configured, the Web API answers [ok: false] with
    [error: 'channel_not_found']: executeSlack returns normally, but its
    result says [sent: true] (with [realMessage: false]) and carries no
    [error] property. *)
Theorem executeSlack_failed_dispatch_failing_input :
  (Route.executeSlack nodeS [] worldSlackDown).1 =
    Ret [("slack", VStr "Notify"); ("sent", VBool true);
         ("channel", VStr "#ops"); ("message", VStr "deploy done");
         ("realMessage", VBool false); ("timestamp", VIso 1500)].
Proof. vm_compute. done. Qed.

(** The same for every client that does not answer [ok: true], whether it
    answers [ok: false] or throws. *)
Lemma executeSlack_failed_dispatch (node : Node) (context : obj) (w : World)
    (c : PostArgs -> PostOutcome) (cfg : SlackConfig) :
  client w = Some c -> slackConfig w = Some cfg ->
  (forall a ts err, c a <> PostResult true ts err) ->
  exists o w', Route.executeSlack node context w = (Ret o, w') /\
               obj_get "sent" o = VBool true /\
               obj_get "realMessage" o = VBool false /\
               obj_has "error" o = false.
Proof.
  destruct w as [t rnd d cl sc wfs exs sws tks tr]. simpl.
  intros -> -> Hc.
  unfold Route.executeSlack, SlackService.sendMessage,
    SlackService.postMessage, SlackService.isConfigured.
  cbv [bind try_catch get_world sleep modify iso_now ret emit set_now
       client slackConfig bool_decide is_Some_dec decide_rel andb].
  destruct (c _) as [[] ts err|e] eqn:E;
    [by apply Hc in E| |]; (eexists _, _; split; [reflexivity|done]).
Qed.

(** The other two cases of the handler: a successful dispatch, and no
    notifier configured. *)
Lemma executeSlack_real (node : Node) (context : obj) (w : World)
    (c : PostArgs -> PostOutcome) (cfg : SlackConfig) :
  client w = Some c -> slackConfig w = Some cfg ->
  (forall a, exists ts err, c a = PostResult true ts err) ->
  exists o w', Route.executeSlack node context w = (Ret o, w') /\
               obj_get "sent" o = VBool true /\
               obj_get "realMessage" o = VBool true.
Proof.
  destruct w as [t rnd d cl sc wfs exs sws tks tr]. simpl.
  intros -> -> Hc.
  unfold Route.executeSlack, SlackService.sendMessage,
    SlackService.postMessage, SlackService.isConfigured.
  cbv [bind try_catch get_world sleep modify iso_now ret emit set_now
       client slackConfig bool_decide is_Some_dec decide_rel andb].
  match goal with |- context [c ?a] => destruct (Hc a) as (ts & err & ->) end.
  eexists _, _; split; [reflexivity|done].
Qed.

Lemma executeSlack_simulated (node : Node) (context : obj) (w : World) :
  client w = None \/ slackConfig w = None ->
  exists o w', Route.executeSlack node context w = (Ret o, w') /\
               obj_get "sent" o = VBool true /\
               obj_get "simulated" o = VBool true.
Proof.
  destruct w as [t rnd d cl sc wfs exs sws tks tr]. simpl.
  intros H.
  assert (bool_decide (is_Some cl) && bool_decide (is_Some sc) = false)
    as Hcfg.
  { destruct H as [-> | ->]; [done|]. by destruct cl. }
  unfold Route.executeSlack, SlackService.isConfigured.
  cbv [bind sleep modify iso_now ret emit set_now client slackConfig].
  rewrite Hcfg.
  eexists _, _; split; [reflexivity|done].
Qed.

(** ** The delay handler *)

(** C8, as stated, fails for [delayMs: 0]: the statement asks for a wait of
    0 ms and [duration: 0]; the handler waits 2000 ms and reports 2000. *)
Lemma executeDelay_zero_counterexample :
  stated_delay (config nodeD0) = Some 0%Z /\
  ~ (exists o w',
       Handlers.executeDelay nodeD0 [] world0 = (Ret o, w') /\
       now w' = (now world0 + 0)%Z /\ obj_get "duration" o = VNum 0) /\
  (Handlers.executeDelay nodeD0 [] world0).1 =
    Ret [("delay", VStr "Wait"); ("delayed", VBool true);
         ("duration", VNum 2000); ("timestamp", VIso 2000)] /\
  trace (Handlers.executeDelay nodeD0 [] world0).2 =
    [EvSleep (VNum 2000) 2000].
Proof.
  split; [reflexivity|]. split; [|split; reflexivity].
  intros (o & w' & Heq & Hnow & _).
  vm_compute in Heq. injection Heq as _ <-. by vm_compute in Hnow.
Qed.

(** The delay handler on every configuration the amended reading covers. *)
Lemma executeDelay_run (node : Node) (context : obj) (w : World) (ms : Z) :
  amended_delay (config node) = Some ms ->
  Handlers.executeDelay node context w =
    (Ret [("delay", VStr (title node)); ("delayed", VBool true);
          ("duration", VNum ms); ("timestamp", VIso (now w + ms))],
     emit (EvSleep (VNum ms) ms) (set_now (now w + ms) w)).
Proof.
  unfold amended_delay, Handlers.executeDelay, js_or.
  destruct (truthy (opt_get (config node) "delayMs")) eqn:Ht.
  - destruct (opt_get (config node) "delayMs") as [| | |n| | | |]; try done.
    destruct ((1 <=? n) && (n <=? 2147483647))%Z eqn:Hr; [|done].
    intros [= <-].
    cbv [bind sleep modify iso_now ret timer_ms]. by rewrite Hr.
  - by intros [= <-].
Qed.

(** C8, amended. A delay node suspends its path for config.delayMs
    milliseconds when that is a number from 1 to 2^31-1, and for 2000 ms
    when config.delayMs is absent or falsy (an explicit 0 included); it then
    returns [delayed: true] with [duration] the milliseconds waited, so the
    clock after the handler is at least that much later (100 ms for
    [delayMs: 100]). *)
Theorem executeDelay_waits (node : Node) (context : obj) (w : World)
    (ms : Z) :
  amended_delay (config node) = Some ms ->
  Handlers.executeDelay node context w =
    (Ret [("delay", VStr (title node)); ("delayed", VBool true);
          ("duration", VNum ms); ("timestamp", VIso (now w + ms))],
     emit (EvSleep (VNum ms) ms) (set_now (now w + ms) w)) /\
  (now w + ms <= now (Handlers.executeDelay node context w).2)%Z.
Proof.
  intros H. rewrite (executeDelay_run node context w ms H).
  split; [done|]. simpl. lia.
Qed.

Lemma executeDelay_waits_witness :
  amended_delay (config nodeD100) = Some 100%Z /\
  Handlers.executeDelay nodeD100 [] world0 =
    (Ret [("delay", VStr "Wait"); ("delayed", VBool true);
          ("duration", VNum 100); ("timestamp", VIso (0 + 100))],
     emit (EvSleep (VNum 100) 100) (set_now (0 + 100) world0)) /\
  (0 + 100 <= now (Handlers.executeDelay nodeD100 [] world0).2)%Z.
Proof.
  split; [reflexivity|].
  apply (executeDelay_waits nodeD100 [] world0 100). reflexivity.
Defined.

(** With [delayMs: 100] the path takes at least 100 ms of clock time, in
    the delay handler alone and in a visit of the node. *)
Lemma executeDelay_100_duration (context : obj) (w : World) :
  (now w + 100 <= now (Handlers.executeDelay nodeD100 context w).2)%Z /\
  forall fuel graph,
    (now w + 100 <=
       now (Route.executeNode (S fuel) nodeD100 graph context w).2)%Z.
Proof.
  split.
  - rewrite (executeDelay_run nodeD100 context w 100); [|done].
    simpl. lia.
  - intros fuel graph.
    destruct (route_executeNode_run fuel nodeD100 graph context w)
      as (result & w' & Hd & ->).
    change (Route.dispatch nodeD100 context w)
      with (Handlers.executeDelay nodeD100 context w) in Hd.
    rewrite (executeDelay_run nodeD100 context w 100) in Hd; [|done].
    injection Hd as _ <-.
    destruct (Handlers.children_of graph (nodeId nodeD100)); simpl; lia.
Qed.

(** ** Persisting the outcome of a run *)

Lemma execution_update_found (id st : string) (err out : value)
    (cAt : option Z) (w : World) (rec : Execution) (col : option string) :
  executions w !! id = Some rec ->
  Db.error_column err (error rec) = Some col ->
  Db.execution_update id st err out cAt w =
    (Ret tt,
     emit (EvUpdate id st)
       (set_executions
          (<[id := mkExecution (workflowId rec) st (input rec)
                     (Db.output_column out (output rec)) col (startedAt rec)
                     (Db.completedAt_column cAt (completedAt rec))]>
             (executions w)) w)).
Proof.
  intros Hrec Hcol. unfold Db.execution_update. by rewrite Hrec, Hcol.
Qed.

Lemma find_trigger_none (ns : list Node) :
  Forall (fun n => type n <> "trigger") ns ->
  find (fun node => String.eqb (type node) "trigger") ns = None.
Proof.
  induction 1 as [|n ns Hn _ IH]; simpl; [done|].
  destruct (String.eqb (type n) "trigger") eqn:E; [|done].
  by apply String.eqb_eq in E.
Qed.

Lemma find_trigger_first (ns : list Node) :
  Exists (fun n => type n = "trigger") ns ->
  exists pre t post,
    ns = pre ++ t :: post /\
    Forall (fun n => type n <> "trigger") pre /\
    type t = "trigger" /\
    find (fun node => String.eqb (type node) "trigger") ns = Some t.
Proof.
  induction ns as [|n ns IH]; intros Hex; [by apply Exists_nil in Hex|].
  simpl. destruct (String.eqb (type n) "trigger") eqn:E.
  - apply String.eqb_eq in E. by exists [], n, ns.
  - apply String.eqb_neq in E.
    apply Exists_cons in Hex as [?|Hex]; [done|].
    destruct (IH Hex) as (pre & t & post & -> & Hpre & Ht & Hfind).
    exists (n :: pre), t, post. by repeat split; [constructor|..].
Qed.

(** The catch block of executeWorkflow, on a record that exists. *)
Lemma executeWorkflow_catch (id : string) (e : exn) (w : World)
    (rec : Execution) :
  executions w !! id = Some rec ->
  Route.updateExecutionStatus id "failed" (VStr (caught_message e))
                              VUndefined w =
    (Ret tt,
     emit (EvUpdate id "failed")
       (set_executions
          (<[id := mkExecution (workflowId rec) "failed" (input rec)
                     (output rec) (Some (caught_message e)) (startedAt rec)
                     (Some (now w))]> (executions w)) w)).
Proof.
  intros Hrec. unfold Route.updateExecutionStatus, bind, new_Date.
  by rewrite (execution_update_found _ _ _ _ _ _ rec
                (Some (caught_message e))).
Qed.

Lemma find_trigger_type (ns : list Node) (t : Node) :
  find (fun node => String.eqb (type node) "trigger") ns = Some t ->
  type t = "trigger".
Proof.
  intros H. apply find_some in H as [_ H]. by apply String.eqb_eq.
Qed.

Lemma find_trigger_elem (ns : list Node) (t : Node) :
  find (fun node => String.eqb (type node) "trigger") ns = Some t ->
  t ∈ ns.
Proof.
  intros H. apply find_some in H as [H _]. by apply list_elem_of_In.
Qed.

Lemma buildExecutionGraph_fuel (nodes' : list Node) (edges' : list Edge) :
  Handlers.buildExecutionGraph nodes' edges' <> OutOfFuel.
Proof. apply add_edges_fuel. Qed.

Lemma buildExecutionGraph_throws (nodes' : list Node) (edges' : list Edge)
    (e : exn) :
  Handlers.buildExecutionGraph nodes' edges' = Throw e ->
  e = ErrorObj "graph[edge.sourceId].push is not a function".
Proof. apply add_edges_throws. Qed.

(** The visit of the trigger node on the graph built from its workflow:
    it returns the trigger's own result and touches nothing. *)
Lemma route_visit_trigger (fuel : nat) (workflow : Workflow) (t : Node)
    (g : Graph) (w : World) :
  first_trigger workflow = Some t ->
  Handlers.buildExecutionGraph (nodes workflow) (edges workflow) = Ret g ->
  Route.executeNode (S fuel) t g [] w =
    (Ret (VObj [("triggered", VBool true); ("timestamp", VIso (now w));
                ("children", VArr [])]), w).
Proof.
  intros Hfind Hbuild.
  destruct (route_executeNode_run fuel t g [] w)
    as (result & w' & Hd & ->).
  destruct (children_of_declared _ _ g t Hbuild
              (find_trigger_elem _ _ Hfind)) as [ts ->].
  unfold Route.dispatch in Hd.
  rewrite (find_trigger_type _ _ Hfind) in Hd. simpl in Hd.
  by injection Hd as <- <-.
Qed.

Lemma scheduler_visit_trigger (fuel : nat) (workflow : Workflow) (t : Node)
    (g : Graph) (w : World) :
  first_trigger workflow = Some t ->
  Handlers.buildExecutionGraph (nodes workflow) (edges workflow) = Ret g ->
  Scheduler.executeNode (S fuel) t g [] w =
    (Ret (VObj [("triggered", VBool true); ("timestamp", VIso (now w));
                ("children", VArr [])]), w).
Proof.
  intros Hfind Hbuild.
  destruct (scheduler_executeNode_run fuel t g [] w)
    as (result & w' & Hd & ->).
  destruct (children_of_declared _ _ g t Hbuild
              (find_trigger_elem _ _ Hfind)) as [ts ->].
  unfold Scheduler.dispatch in Hd.
  rewrite (find_trigger_type _ _ Hfind) in Hd. simpl in Hd.
  by injection Hd as <- <-.
Qed.

(** The [try] block of executeWorkflow, on a record that exists: it throws
    for a workflow without trigger node and when the graph cannot be
    built, and nothing has been written by then; otherwise it writes the
    success. *)
Lemma executeWorkflow_try_run (fuel : nat) (workflow : Workflow)
    (id : string) (w : World) (rec : Execution) :
  executions w !! id = Some rec ->
  Route.executeWorkflow_try (S fuel) workflow id w =
    match first_trigger workflow with
    | None => (Throw (ErrorObj "No trigger node found in workflow"), w)
    | Some _ =>
        match Handlers.buildExecutionGraph (nodes workflow)
                                           (edges workflow) with
        | Ret _ =>
            (Ret tt,
             emit (EvUpdate id "completed")
               (set_executions
                  (<[id := run_record true workflow rec (now w)]>
                     (executions w)) w))
        | Throw e => (Throw e, w)
        | OutOfFuel => (OutOfFuel, w)
        end
    end.
Proof.
  intros Hrec. unfold Route.executeWorkflow_try, run_record.
  fold (first_trigger workflow).
  destruct (first_trigger workflow) as [t|] eqn:Hfind; [|done].
  unfold bind at 1, lift.
  destruct (Handlers.buildExecutionGraph (nodes workflow) (edges workflow))
    as [g|e|] eqn:Hbuild; [|done..].
  unfold bind. rewrite (route_visit_trigger fuel workflow t g w Hfind Hbuild).
  unfold Route.updateExecutionStatus, bind, new_Date.
  by rewrite (execution_update_found _ _ _ _ _ _ rec None).
Qed.

(** executeWorkflow on a record that exists: one write, of the record that
    [run_record] describes. *)
Lemma executeWorkflow_run (fuel : nat) (workflow : Workflow)
    (id : string) (w : World) (rec : Execution) :
  executions w !! id = Some rec ->
  Route.executeWorkflow (S fuel) workflow id w =
    (Ret tt,
     emit (EvUpdate id (status (run_record true workflow rec (now w))))
       (set_executions
          (<[id := run_record true workflow rec (now w)]> (executions w))
          w)).
Proof.
  intros Hrec. unfold Route.executeWorkflow, try_catch.
  rewrite (executeWorkflow_try_run fuel workflow id w rec Hrec).
  unfold run_record.
  destruct (first_trigger workflow) as [t|].
  - pose proof (buildExecutionGraph_fuel (nodes workflow) (edges workflow))
      as Hfuel.
    destruct (Handlers.buildExecutionGraph (nodes workflow) (edges workflow))
      as [g|e|]; [done| |done].
    by rewrite (executeWorkflow_catch id e w rec Hrec).
  - by rewrite (executeWorkflow_catch id _ w rec Hrec).
Qed.

Lemma runWorkflow_run (fuel : nat) (workflow : Workflow)
    (id : string) (w : World) (rec : Execution) :
  executions w !! id = Some rec ->
  Scheduler.runWorkflow (S fuel) workflow id w =
    (Ret tt,
     emit (EvUpdate id (status (run_record false workflow rec (now w))))
       (set_executions
          (<[id := run_record false workflow rec (now w)]> (executions w))
          w)).
Proof.
  intros Hrec.
  unfold Scheduler.runWorkflow, Scheduler.runWorkflow_try, try_catch,
    run_record.
  fold (first_trigger workflow).
  destruct (first_trigger workflow) as [t|] eqn:Hfind.
  - unfold bind at 1, lift.
    pose proof (buildExecutionGraph_fuel (nodes workflow) (edges workflow))
      as Hfuel.
    destruct (Handlers.buildExecutionGraph (nodes workflow) (edges workflow))
      as [g|e|] eqn:Hbuild; [| |done].
    + unfold bind.
      rewrite (scheduler_visit_trigger fuel workflow t g w Hfind Hbuild).
      unfold new_Date.
      by rewrite (execution_update_found _ _ _ _ _ _ rec (error rec)).
    + unfold bind, new_Date.
      by rewrite (execution_update_found _ _ _ _ _ _ rec
                    (Some (caught_message e))).
  - unfold throw, bind, new_Date.
    by rewrite (execution_update_found _ _ _ _ _ _ rec
                  (Some "No trigger node found in workflow")).
Qed.

Lemma run_record_terminal (cleared : bool) (workflow : Workflow)
    (rec : Execution) (t : Z) :
  terminal (status (run_record cleared workflow rec t)) /\
  is_Some (completedAt (run_record cleared workflow rec t)).
Proof.
  unfold run_record.
  destruct (first_trigger workflow) as [tn|]; [|by split; [right|]].
  pose proof (buildExecutionGraph_fuel (nodes workflow) (edges workflow))
    as Hfuel.
  destruct (Handlers.buildExecutionGraph (nodes workflow) (edges workflow))
    as [g|e|]; [by split; [left|]|by split; [right|]|done].
Qed.

(** A workflow without trigger node: the run is persisted as failed with
    the message 'No trigger node found in workflow', which reads "no
    trigger" once letter case is set aside. *)
Lemma executeWorkflow_no_trigger (fuel : nat) (workflow : Workflow)
    (id : string) (w : World) (rec : Execution) :
  Forall (fun n => type n <> "trigger") (nodes workflow) ->
  executions w !! id = Some rec ->
  Route.executeWorkflow (S fuel) workflow id w =
    (Ret tt,
     emit (EvUpdate id "failed")
       (set_executions
          (<[id := mkExecution (workflowId rec) "failed" (input rec)
                     (output rec) (Some "No trigger node found in workflow")
                     (startedAt rec) (Some (now w))]> (executions w)) w)).
Proof.
  intros Hno Hrec. rewrite (executeWorkflow_run fuel workflow id w rec Hrec).
  unfold run_record, first_trigger. by rewrite (find_trigger_none _ Hno).
Qed.

Example no_trigger_message :
  includes "no trigger" (toLowerCase "No trigger node found in workflow")
    = true.
Proof. reflexivity. Qed.

(** A workflow with a trigger node: the first one is looked up, then the
    graph is built, and the traversal is started at that node, on that
    graph and the empty context. *)
Lemma executeWorkflow_starts_at_trigger (fuel : nat) (workflow : Workflow)
    (id : string) :
  Exists (fun n => type n = "trigger") (nodes workflow) ->
  exists pre t post,
    nodes workflow = pre ++ t :: post /\
    Forall (fun n => type n <> "trigger") pre /\
    type t = "trigger" /\
    Route.executeWorkflow_try fuel workflow id =
      (let* executionGraph :=
         lift (Handlers.buildExecutionGraph (nodes workflow)
                                            (edges workflow)) in
       let* result := Route.executeNode fuel t executionGraph [] in
       Route.updateExecutionStatus id "completed" VNull result).
Proof.
  intros Hex.
  destruct (find_trigger_first _ Hex)
    as (pre & t & post & Hn & Hpre & Ht & Hfind).
  exists pre, t, post. repeat split; try done.
  unfold Route.executeWorkflow_try. by rewrite Hfind.
Qed.


(** C3. executeWorkflow always returns. Whenever an exception escapes its
    [try] block, that exception is an Error (the one for the missing
    trigger node, or the TypeError of buildExecutionGraph), and the record
    is persisted with status failed, error equal to the exception's
    message and completedAt set, its output column left as it was (empty
    on a record just created). When nothing escapes, the block itself has
    persisted status completed together with the output. *)
Theorem executeWorkflow_failure_persisted (fuel : nat) (workflow : Workflow)
    (id : string) (w : World) (rec : Execution) :
  executions w !! id = Some rec ->
  exists w',
    Route.executeWorkflow (S fuel) workflow id w = (Ret tt, w') /\
    (forall e w1,
       Route.executeWorkflow_try (S fuel) workflow id w = (Throw e, w1) ->
       exists message,
         e = ErrorObj message /\
         executions w' !! id =
           Some (mkExecution (workflowId rec) "failed" (input rec)
                   (output rec) (Some message) (startedAt rec)
                   (Some (now w1))) /\
         trace w' = trace w1 ++ [EvUpdate id "failed"]) /\
    (forall w1,
       Route.executeWorkflow_try (S fuel) workflow id w = (Ret tt, w1) ->
       w' = w1 /\
       exists result,
         executions w' !! id =
           Some (mkExecution (workflowId rec) "completed" (input rec)
                   (Some result) None (startedAt rec) (Some (now w))) /\
         trace w' = trace w ++ [EvUpdate id "completed"]) /\
    (Route.executeWorkflow_try (S fuel) workflow id w).1 <> OutOfFuel.
Proof.
  intros Hrec. eexists. split; [by apply executeWorkflow_run|].
  rewrite (executeWorkflow_try_run fuel workflow id w rec Hrec).
  unfold run_record.
  destruct (first_trigger workflow) as [t|].
  - pose proof (buildExecutionGraph_fuel (nodes workflow) (edges workflow))
      as Hfuel.
    destruct (Handlers.buildExecutionGraph (nodes workflow) (edges workflow))
      as [g|e0|] eqn:Hbuild; [| |done].
    + split; [done|]. split; [|done]. intros w1 [= <-]. split; [done|].
      eexists. split; [|done]. simpl. apply lookup_insert_eq.
    + split; [|by split]. intros e w1 [= <- <-].
      pose proof (buildExecutionGraph_throws _ _ _ Hbuild) as ->.
      eexists. split; [done|]. split; [|done]. simpl.
      apply lookup_insert_eq.
  - split; [|by split]. intros e w1 [= <- <-].
    eexists. split; [done|]. split; [|done]. simpl. apply lookup_insert_eq.
Qed.

Lemma executeWorkflow_failure_persisted_witness :
  exists w',
    Route.executeWorkflow 1 workflowHazard "e1" worldRunning = (Ret tt, w') /\
    executions w' !! "e1" =
      Some (mkExecution "wf1" "failed" [] None
              (Some "graph[edge.sourceId].push is not a function") 0
              (Some 0%Z)) /\
    trace w' = [EvCreate "e1" "running"; EvUpdate "e1" "failed"].
Proof.
  destruct (executeWorkflow_failure_persisted 0 workflowHazard "e1"
              worldRunning
              (mkExecution "wf1" "running" [] None None 0 None) eq_refl)
    as (w' & Hrun & Hthrow & _).
  destruct (Hthrow (ErrorObj "graph[edge.sourceId].push is not a function")
              worldRunning eq_refl) as (message & Heq & Hrec & Htr).
  injection Heq as <-.
  exists w'. split; [exact Hrun|]. split; [exact Hrec|exact Htr].
Defined.

(** ** The manual run of an inactive workflow *)

(** C10. For a workflow whose isActive flag is false, the run-now endpoint
    answers 400 'Workflow is not active' and leaves the world as it was: no
    execution record is created, and no run is started. *)
Theorem POST_inactive_rejected (id : string) (w : World)
    (workflow : Workflow) :
  workflows w !! id = Some workflow ->
  isActive workflow = false ->
  Route.POST id w =
    (Ret (Route.mkResponse 400 [("error", VStr "Workflow is not active")],
          None),
     w).
Proof.
  intros Hwf Hact. unfold Route.POST, try_catch, bind, get_world.
  by rewrite Hwf, Hact.
Qed.

Lemma POST_inactive_rejected_witness :
  Route.POST "wf1" worldInactive =
    (Ret (Route.mkResponse 400 [("error", VStr "Workflow is not active")],
          None),
     worldInactive)
  /\ executions worldInactive = ∅.
Proof.
  split; [|reflexivity].
  apply (POST_inactive_rejected "wf1" worldInactive workflowInactive);
    reflexivity.
Defined.
(** ** The scheduler's bindings *)

(** C7, as stated, fails for a string that is not a five-field cron
    expression and that the validator accepts: node-cron also takes
    expressions with a sixth, leading field for the seconds. For
    '*/10 * * * * *' scheduleWorkflow raises nothing; it replaces the
    binding that the workflow had and stops its timer. *)
Lemma scheduleWorkflow_six_fields_counterexample :
  five_fields "*/10 * * * * *" = false /\
  five_or_six_fields "*/10 * * * * *" = true /\
  scheduledWorkflows worldScheduled !! "wf1" =
    Some (mkScheduledWorkflow "wf1" "wf1" "*/5 * * * *" 0) /\
  ~ (exists e w',
       Scheduler.scheduleWorkflow five_or_six_fields "wf1" "*/10 * * * * *"
                                  worldScheduled = (Throw e, w')) /\
  exists w',
    Scheduler.scheduleWorkflow five_or_six_fields "wf1" "*/10 * * * * *"
                               worldScheduled = (Ret tt, w') /\
    scheduledWorkflows w' !! "wf1" =
      Some (mkScheduledWorkflow "wf1" "wf1" "*/10 * * * * *" 1) /\
    tasks w' = [mkCronTask "*/5 * * * *" "wf1" false;
                mkCronTask "*/10 * * * * *" "wf1" true].
Proof.
  split; [reflexivity|]. split; [reflexivity|]. split; [reflexivity|].
  split.
  - intros (e & w' & H). vm_compute in H. discriminate H.
  - eexists. split; [reflexivity|]. split; reflexivity.
Qed.

(** C7, amended. A schedule that the validator of node-cron rejects makes
    scheduleWorkflow throw 'Invalid cron expression: ...' before it touches
    anything: the world, and with it the binding map and every timer, is
    unchanged. *)
Theorem scheduleWorkflow_invalid (validate : string -> bool)
    (id s : string) (w : World) :
  validate s = false ->
  Scheduler.scheduleWorkflow validate id s w =
    (Throw (ErrorObj ("Invalid cron expression: " +:+ s)), w).
Proof.
  intros Hv. unfold Scheduler.scheduleWorkflow. by rewrite Hv.
Qed.

Lemma scheduleWorkflow_invalid_witness :
  Scheduler.scheduleWorkflow five_fields "wf1" "not-a-cron" worldScheduled =
    (Throw (ErrorObj "Invalid cron expression: not-a-cron"), worldScheduled)
  /\ scheduledWorkflows worldScheduled !! "wf1" =
       Some (mkScheduledWorkflow "wf1" "wf1" "*/5 * * * *" 0)
  /\ tasks worldScheduled = [mkCronTask "*/5 * * * *" "wf1" true].
Proof.
  split; [|split; reflexivity].
  apply (scheduleWorkflow_invalid five_fields "wf1" "not-a-cron"
           worldScheduled).
  reflexivity.
Defined.

Lemma length_stop_bound (id : string) (w : World) :
  length (stop_bound id w) = length (tasks w).
Proof.
  unfold stop_bound. destruct (scheduledWorkflows w !! id); [|done].
  apply length_alter.
Qed.

Lemma unscheduleWorkflow_run (id : string) (w : World) :
  Scheduler.unscheduleWorkflow id w =
    (Ret tt,
     set_scheduledWorkflows (delete id (scheduledWorkflows w))
                            (set_tasks (stop_bound id w) w)).
Proof.
  unfold Scheduler.unscheduleWorkflow, stop_bound, bind, get_world.
  destruct (scheduledWorkflows w !! id) as [sw|] eqn:Hsw.
  - reflexivity.
  - rewrite (delete_id _ _ Hsw). by destruct w.
Qed.

Lemma scheduleWorkflow_run (validate : string -> bool) (id e : string)
    (w : World) :
  validate e = true ->
  Scheduler.scheduleWorkflow validate id e w =
    (Ret tt,
     set_tasks (stop_bound id w ++ [mkCronTask e id true])
       (set_scheduledWorkflows
          (<[id := mkScheduledWorkflow id id e (length (tasks w))]>
             (scheduledWorkflows w)) w)).
Proof.
  intros Hv. unfold Scheduler.scheduleWorkflow. rewrite Hv. simpl.
  unfold bind at 1. rewrite unscheduleWorkflow_run.
  cbv [bind Scheduler.cron_schedule modify Scheduler.task_start].
  destruct w as [t rnd d cl sc wfs exs sws tks tr].
  unfold stop_bound, set_tasks, set_scheduledWorkflows. simpl.
  rewrite insert_delete_eq.
  destruct (sws !! id) as [sw|]; simpl;
    rewrite ?length_alter, alter_app_r_alt, ?length_alter, Nat.sub_diag
      by (rewrite ?length_alter; lia);
    reflexivity.
Qed.

Lemma filter_seq_none (p : nat -> bool) (n : nat) :
  (forall i, i < n -> p i = false) -> List.filter p (seq 0 n) = [].
Proof.
  induction n as [|n IH]; intros Hp; [done|].
  rewrite seq_S, List.filter_app, IH by (intros; apply Hp; lia).
  simpl. by rewrite Hp by lia.
Qed.

Lemma filter_seq_single (p : nat -> bool) (n k : nat) :
  k < n -> p k = true -> (forall i, i < n -> p i = true -> i = k) ->
  List.filter p (seq 0 n) = [k].
Proof.
  induction n as [|n IH]; intros Hk Hpk Huniq; [lia|].
  rewrite seq_S, List.filter_app. simpl.
  destruct (decide (k = n)) as [->|Hne].
  - rewrite Hpk, filter_seq_none; [done|].
    intros i Hi. destruct (p i) eqn:E; [|done].
    apply Huniq in E; lia.
  - rewrite IH; [|lia|done|intros; apply Huniq; [lia|done]].
    destruct (p n) eqn:E; [|done].
    apply Huniq in E; [done|lia].
Qed.

Lemma stop_bound_running (id : string) (w : World) (i : nat) (t : CronTask) :
  stop_bound id w !! i = Some t -> task_running t = true ->
  tasks w !! i = Some t /\
  forall sw, scheduledWorkflows w !! id = Some sw -> sw_task sw <> i.
Proof.
  unfold stop_bound. intros Hi Hrun.
  destruct (scheduledWorkflows w !! id) as [sw|]; [|done].
  destruct (decide (sw_task sw = i)) as [<-|Hne].
  - rewrite list_lookup_alter_eq in Hi.
    destruct (tasks w !! sw_task sw) as [t0|]; [|done].
    injection Hi as <-. done.
  - rewrite list_lookup_alter_ne in Hi by done.
    split; [done|]. by intros ? [= <-].
Qed.

Lemma scheduled_running (id e : string) (w : World) (i : nat)
    (t : CronTask) :
  sched_ok w ->
  tasks (scheduled id e w) !! i = Some t -> task_running t = true ->
  (i = length (tasks w) /\ t = mkCronTask e id true) \/
  (i < length (tasks w) /\ tasks w !! i = Some t /\
   task_workflowId t <> id).
Proof.
  intros Hok Hi Hrun.
  destruct w as [tm rnd d cl sc wfs exs sws tks tr].
  unfold scheduled in Hi. simpl in Hi.
  destruct (decide (i < length tks)) as [Hlt|Hge].
  - right. split; [done|].
    rewrite lookup_app_l in Hi
      by (rewrite length_stop_bound; simpl; lia).
    destruct (stop_bound_running _ _ _ _ Hi Hrun) as [Ht Hnot].
    split; [done|]. intros Hid.
    destruct (Hok i t Ht Hrun) as (sw & Hsw & Htask).
    rewrite Hid in Hsw. by apply Hnot in Hsw.
  - left.
    rewrite lookup_app_r in Hi
      by (rewrite length_stop_bound; simpl; lia).
    rewrite length_stop_bound in Hi. simpl in Hi.
    destruct (i - length tks) as [|k] eqn:Hk; simpl in Hi; [|done].
    injection Hi as <-. split; [simpl; lia|done].
Qed.

Lemma scheduled_ok (id e : string) (w : World) :
  sched_ok w -> sched_ok (scheduled id e w).
Proof.
  intros Hok i t Hi Hrun.
  destruct (scheduled_running id e w i t Hok Hi Hrun)
    as [[-> ->]|(Hlt & Ht & Hne)].
  - exists (mkScheduledWorkflow id id e (length (tasks w))).
    split; [|done]. destruct w; simpl. apply lookup_insert_eq.
  - destruct (Hok i t Ht Hrun) as (sw & Hsw & Htask).
    exists sw. split; [|done].
    destruct w; simpl in *. by rewrite lookup_insert_ne.
Qed.

Lemma scheduled_new_task (id e : string) (w : World) :
  tasks (scheduled id e w) !! length (tasks w) = Some (mkCronTask e id true).
Proof.
  destruct w as [tm rnd d cl sc wfs exs sws tks tr]. unfold scheduled. simpl.
  rewrite lookup_app_r by (rewrite length_stop_bound; simpl; lia).
  rewrite length_stop_bound. simpl. by rewrite Nat.sub_diag.
Qed.

Lemma length_scheduled (id e : string) (w : World) :
  length (tasks (scheduled id e w)) = S (length (tasks w)).
Proof.
  destruct w. unfold scheduled. simpl.
  rewrite length_app, length_stop_bound. simpl. lia.
Qed.

Lemma scheduled_active (id e : string) (w : World) :
  sched_ok w -> active_timers id (scheduled id e w) = [length (tasks w)].
Proof.
  intros Hok. unfold active_timers. rewrite length_scheduled.
  apply filter_seq_single; [lia| |].
  - rewrite scheduled_new_task. simpl. apply String.eqb_refl.
  - intros i _ Hp.
    destruct (tasks (scheduled id e w) !! i) as [t|] eqn:Hi; [|done].
    apply andb_true_iff in Hp as [Hrun Hid]. apply String.eqb_eq in Hid.
    destruct (scheduled_running id e w i t Hok Hi Hrun)
      as [[-> _]|(_ & _ & Hne)]; done.
Qed.

Lemma sched_ok_no_tasks (w : World) : tasks w = [] -> sched_ok w.
Proof. intros Hnil i t Hi. by rewrite Hnil in Hi. Qed.

Lemma unscheduleWorkflow_ok (id : string) (w : World) :
  sched_ok w -> sched_ok (Scheduler.unscheduleWorkflow id w).2.
Proof.
  intros Hok. rewrite unscheduleWorkflow_run. intros i t Hi Hrun.
  destruct w as [tm rnd d cl sc wfs exs sws tks tr]. simpl in *.
  destruct (stop_bound_running _ _ _ _ Hi Hrun) as [Ht Hnot].
  destruct (Hok i t Ht Hrun) as (sw & Hsw & Htask). simpl in *.
  exists sw. split; [|done].
  rewrite lookup_delete_ne; [done|].
  intros Heq. rewrite <- Heq in Hsw. by apply Hnot in Hsw.
Qed.

(** C6. Two calls of scheduleWorkflow for the same workflowId with valid
    expressions both succeed and leave, in the scheduler's map, one binding
    for that workflowId: it holds the second expression and a started
    timer, the timer created by the first call is stopped, and the
    bindings of other workflows are as before. When, before the calls,
    every running timer is the one its workflow is bound to (so initially,
    and after any scheduleWorkflow or unscheduleWorkflow), the second timer
    is the only running timer of that workflow. *)
Theorem scheduleWorkflow_twice (validate : string -> bool)
    (id e1 e2 : string) (w : World) :
  validate e1 = true -> validate e2 = true ->
  exists w1 w2,
    Scheduler.scheduleWorkflow validate id e1 w = (Ret tt, w1) /\
    Scheduler.scheduleWorkflow validate id e2 w1 = (Ret tt, w2) /\
    scheduledWorkflows w2 !! id =
      Some (mkScheduledWorkflow id id e2 (S (length (tasks w)))) /\
    (forall id', id' <> id ->
       scheduledWorkflows w2 !! id' = scheduledWorkflows w !! id') /\
    tasks w2 !! S (length (tasks w)) = Some (mkCronTask e2 id true) /\
    tasks w2 !! length (tasks w) = Some (mkCronTask e1 id false) /\
    (sched_ok w -> active_timers id w2 = [S (length (tasks w))] /\
                   sched_ok w2).
Proof.
  intros Hv1 Hv2.
  exists (scheduled id e1 w), (scheduled id e2 (scheduled id e1 w)).
  pose proof (length_scheduled id e1 w) as Hlen.
  split; [by apply scheduleWorkflow_run|].
  split; [by apply scheduleWorkflow_run|].
  split; [|split; [|split; [|split]]].
  - rewrite <- Hlen. unfold scheduled at 1.
    destruct (scheduled id e1 w); simpl. apply lookup_insert_eq.
  - intros id' Hne. unfold scheduled.
    destruct w; simpl. by rewrite !lookup_insert_ne.
  - rewrite <- Hlen. apply scheduled_new_task.
  - pose proof (scheduled_new_task id e1 w) as Hnew.
    assert (scheduledWorkflows (scheduled id e1 w) !! id =
              Some (mkScheduledWorkflow id id e1 (length (tasks w)))) as Hb.
    { destruct w; simpl. apply lookup_insert_eq. }
    unfold scheduled at 1.
    destruct (scheduled id e1 w) as [tm rnd d cl sc wfs exs sws tks tr]
      eqn:Hw1.
    simpl in *. unfold stop_bound. simpl. rewrite Hb. simpl.
    rewrite lookup_app_l by (rewrite length_alter; lia).
    rewrite list_lookup_alter_eq, Hnew. done.
  - intros Hok. pose proof (scheduled_ok id e1 w Hok) as Hok1. split.
    + rewrite <- Hlen. by apply scheduled_active.
    + by apply scheduled_ok.
Qed.

Lemma scheduleWorkflow_twice_witness :
  exists w1 w2,
    Scheduler.scheduleWorkflow five_fields "wf1" "*/5 * * * *" world0
      = (Ret tt, w1) /\
    Scheduler.scheduleWorkflow five_fields "wf1" "0 9 * * 1" w1
      = (Ret tt, w2) /\
    scheduledWorkflows w2 !! "wf1" =
      Some (mkScheduledWorkflow "wf1" "wf1" "0 9 * * 1" 1) /\
    tasks w2 !! 1 = Some (mkCronTask "0 9 * * 1" "wf1" true) /\
    tasks w2 !! 0 = Some (mkCronTask "*/5 * * * *" "wf1" false) /\
    active_timers "wf1" w2 = [1] /\
    sched_ok w2.
Proof.
  destruct (scheduleWorkflow_twice five_fields "wf1" "*/5 * * * *"
              "0 9 * * 1" world0 eq_refl eq_refl)
    as (w1 & w2 & H1 & H2 & Hb & _ & Ht2 & Ht1 & Hact).
  exists w1, w2.
  destruct (Hact (sched_ok_no_tasks world0 eq_refl)) as [Ha Hok].
  repeat split; assumption.
Defined.

(** ** The life of an execution record *)

Lemma status_history_app (id : string) (tr1 tr2 : list Event) :
  status_history id (tr1 ++ tr2) =
    status_history id tr1 ++ status_history id tr2.
Proof.
  induction tr1 as [|ev tr1 IH]; simpl; [done|].
  destruct ev; try done; destruct (String.eqb id _); simpl; by rewrite ?IH.
Qed.

Lemma lifecycle_ok_ran (w w' : World) :
  lifecycle_ok w -> ran w w' -> lifecycle_ok w'.
Proof.
  intros Hok (id & rec & st & Hnone & Hex & Htr & Hterm & Hst & Hc) id0.
  rewrite Hex, Htr, status_history_app. specialize (Hok id0).
  destruct (decide (id0 = id)) as [->|Hne].
  - rewrite lookup_insert_eq. rewrite Hnone in Hok. rewrite Hok. simpl.
    rewrite String.eqb_refl. by exists st.
  - rewrite lookup_insert_ne by done. simpl.
    apply String.eqb_neq in Hne. rewrite Hne.
    by rewrite app_nil_r.
Qed.

Lemma lifecycle_ok_initial (w : World) :
  executions w = ∅ -> trace w = [] -> lifecycle_ok w.
Proof. intros Hex Htr id. by rewrite Hex, Htr, lookup_empty. Qed.

Lemma fresh_execution (w : World) :
  executions w !! fresh (dom (executions w)) = None.
Proof. apply not_elem_of_dom, is_fresh. Qed.

Lemma POST_active (id : string) (w : World) (workflow : Workflow) :
  workflows w !! id = Some workflow ->
  isActive workflow = true ->
  Route.POST id w =
    (Ret (Route.mkResponse 200
            [("executionId", VStr (fresh (dom (executions w))));
             ("status", VStr "running");
             ("message", VStr "Workflow execution started")],
          Some (Route.mkBackground workflow (fresh (dom (executions w))))),
     emit (EvCreate (fresh (dom (executions w))) "running")
       (set_executions
          (<[fresh (dom (executions w)) :=
               mkExecution id "running" [] None None (now w) None]>
             (executions w)) w)).
Proof.
  intros Hwf Hact. unfold Route.POST, try_catch, bind, get_world.
  by rewrite Hwf, Hact.
Qed.

Lemma POST_refused (id : string) (w : World) :
  (forall workflow, workflows w !! id = Some workflow ->
                    isActive workflow = false) ->
  exists r, Route.POST id w = (Ret (r, None), w) /\
            Route.http_status r =
              match workflows w !! id with
              | None => 404%Z
              | Some _ => 400%Z
              end.
Proof.
  intros H. unfold Route.POST, try_catch, bind, get_world.
  destruct (workflows w !! id) as [workflow|]; [|by eexists].
  rewrite (H workflow eq_refl). by eexists.
Qed.

(** The run that POST left behind, on a record that exists. *)
Lemma background_run (fuel : nat) (workflow : Workflow) (id : string)
    (w : World) (rec : Execution) :
  executions w !! id = Some rec ->
  Route.background (S fuel) (Route.mkBackground workflow id) w =
    (Ret tt,
     emit (EvUpdate id (status (run_record true workflow rec (now w))))
       (set_executions
          (<[id := run_record true workflow rec (now w)]> (executions w))
          w)).
Proof.
  intros Hrec. unfold Route.background, Route.detached, try_catch. simpl.
  by rewrite (executeWorkflow_run fuel workflow id w rec Hrec).
Qed.

Lemma POST_and_background_active (fuel : nat) (id : string) (w : World)
    (workflow : Workflow) :
  workflows w !! id = Some workflow ->
  isActive workflow = true ->
  let ide := fresh (dom (executions w)) in
  let created := mkExecution id "running" [] None None (now w) None in
  let ended := run_record true workflow created (now w) in
  Route.POST_and_background (S fuel) id w =
    (Ret (Route.mkResponse 200
            [("executionId", VStr ide); ("status", VStr "running");
             ("message", VStr "Workflow execution started")]),
     emit (EvUpdate ide (status ended))
       (emit (EvCreate ide "running")
          (set_executions (<[ide := ended]> (executions w)) w))).
Proof.
  intros Hwf Hact ide created ended.
  unfold Route.POST_and_background, bind.
  rewrite (POST_active id w workflow Hwf Hact). simpl.
  fold ide created.
  set (w1 := emit (EvCreate ide "running")
               (set_executions (<[ide := created]> (executions w)) w)).
  assert (executions w1 !! ide = Some created) as Hrec.
  { destruct w; simpl. apply lookup_insert_eq. }
  rewrite (background_run fuel workflow ide w1 created Hrec).
  destruct w; simpl. unfold ended. simpl. by rewrite insert_insert_eq.
Qed.

Lemma POST_and_background_refused (fuel : nat) (id : string) (w : World) :
  (forall workflow, workflows w !! id = Some workflow ->
                    isActive workflow = false) ->
  (Route.POST_and_background fuel id w).2 = w.
Proof.
  intros H. unfold Route.POST_and_background, bind.
  by destruct (POST_refused id w H) as (r & -> & _).
Qed.

Lemma POST_ran (fuel : nat) (id : string) (w : World) :
  (Route.POST_and_background (S fuel) id w).2 = w \/
  ran w (Route.POST_and_background (S fuel) id w).2.
Proof.
  destruct (workflows w !! id) as [workflow|] eqn:Hwf.
  - destruct (isActive workflow) eqn:Hact.
    + right.
      rewrite (POST_and_background_active fuel id w workflow Hwf Hact).
      simpl.
      set (r0 := mkExecution id "running" [] None None (now w) None).
      destruct (run_record_terminal true workflow r0 (now w))
        as [Hterm Hc].
      exists (fresh (dom (executions w))),
        (run_record true workflow r0 (now w)),
        (status (run_record true workflow r0 (now w))).
      split; [apply fresh_execution|].
      destruct w; simpl. by rewrite <- app_assoc.
    + left. apply POST_and_background_refused.
      intros wf. rewrite Hwf. by intros [= <-].
  - left. apply POST_and_background_refused.
    intros wf. by rewrite Hwf.
Qed.

Lemma executeScheduledWorkflow_active_run (fuel : nat) (id : string)
    (w : World) (workflow : Workflow) :
  workflows w !! id = Some workflow ->
  isActive workflow = true ->
  let ide := fresh (dom (executions w)) in
  let created := mkExecution id "running" [("triggeredBy", VStr "scheduler")]
                             None None (now w) None in
  let ended := run_record false workflow created (now w) in
  Scheduler.executeScheduledWorkflow (S fuel) id w =
    (Ret tt,
     emit (EvUpdate ide (status ended))
       (emit (EvCreate ide "running")
          (set_executions (<[ide := ended]> (executions w)) w))).
Proof.
  intros Hwf Hact ide created ended.
  unfold Scheduler.executeScheduledWorkflow, try_catch, bind, get_world.
  rewrite Hwf, Hact. simpl. unfold Db.execution_create. fold ide created.
  set (w1 := emit (EvCreate ide "running")
               (set_executions (<[ide := created]> (executions w)) w)).
  assert (executions w1 !! ide = Some created) as Hrec.
  { destruct w; simpl. apply lookup_insert_eq. }
  rewrite (runWorkflow_run fuel workflow ide w1 created Hrec).
  destruct w; simpl. unfold ended. simpl. by rewrite insert_insert_eq.
Qed.

Lemma executeScheduledWorkflow_skip (fuel : nat) (id : string) (w : World) :
  (forall workflow, workflows w !! id = Some workflow ->
                    isActive workflow = false) ->
  Scheduler.executeScheduledWorkflow fuel id w = (Ret tt, w).
Proof.
  intros H.
  unfold Scheduler.executeScheduledWorkflow, try_catch, bind, get_world.
  destruct (workflows w !! id) as [workflow|]; [|done].
  by rewrite (H workflow eq_refl).
Qed.

Lemma executeScheduledWorkflow_ran (fuel : nat) (id : string) (w : World) :
  (Scheduler.executeScheduledWorkflow (S fuel) id w).2 = w \/
  ran w (Scheduler.executeScheduledWorkflow (S fuel) id w).2.
Proof.
  destruct (workflows w !! id) as [workflow|] eqn:Hwf.
  - destruct (isActive workflow) eqn:Hact.
    + right.
      rewrite (executeScheduledWorkflow_active_run fuel id w workflow
                 Hwf Hact). simpl.
      set (r0 := mkExecution id "running"
                   [("triggeredBy", VStr "scheduler")] None None (now w)
                   None).
      destruct (run_record_terminal false workflow r0 (now w))
        as [Hterm Hc].
      exists (fresh (dom (executions w))),
        (run_record false workflow r0 (now w)),
        (status (run_record false workflow r0 (now w))).
      split; [apply fresh_execution|].
      destruct w; simpl. by rewrite <- app_assoc.
    + left. rewrite executeScheduledWorkflow_skip; [done|].
      intros wf. rewrite Hwf. by intros [= <-].
  - left. rewrite executeScheduledWorkflow_skip; [done|].
    intros wf. by rewrite Hwf.
Qed.

Lemma lifecycle_ok_op (fuel : nat) (o : Op) (w : World) :
  lifecycle_ok w -> lifecycle_ok (run_op (S fuel) o w).
Proof.
  intros Hok. destruct o as [id|id|wfs]; simpl.
  - destruct (POST_ran fuel id w) as [-> | Hran]; [done|].
    by apply (lifecycle_ok_ran w).
  - destruct (executeScheduledWorkflow_ran fuel id w) as [-> | Hran]; [done|].
    by apply (lifecycle_ok_ran w).
  - by destruct w.
Qed.

Lemma lifecycle_ok_ops (fuel : nat) (ops : list Op) (w : World) :
  lifecycle_ok w -> lifecycle_ok (run_ops (S fuel) ops w).
Proof.
  revert w. induction ops as [|o ops IH]; intros w Hok; [done|].
  simpl. by apply IH, lifecycle_ok_op.
Qed.

(** C9. Start with an empty execution table and let manual runs, timer
    fires and rewrites of the workflow table happen in any order and
    number. Then every execution record was written exactly twice, first
    with status running (its creation) and then with completed or failed,
    and it holds that terminal status with completedAt set: no later
    operation writes to it again. *)
Theorem execution_lifecycle (fuel : nat) (ops : list Op) (w0 : World) :
  executions w0 = ∅ -> trace w0 = [] ->
  forall id,
    match executions (run_ops (S fuel) ops w0) !! id with
    | None => status_history id (trace (run_ops (S fuel) ops w0)) = []
    | Some e =>
        exists st,
          (st = "completed" \/ st = "failed") /\
          status_history id (trace (run_ops (S fuel) ops w0))
            = ["running"; st] /\
          status e = st /\ is_Some (completedAt e)
    end.
Proof.
  intros Hex Htr.
  apply (lifecycle_ok_ops fuel ops w0), lifecycle_ok_initial; done.
Qed.

Lemma execution_lifecycle_witness :
  match executions (run_ops 3 opsDemo worldActive) !! "2" with
  | None => status_history "2" (trace (run_ops 3 opsDemo worldActive)) = []
  | Some e =>
      exists st,
        (st = "completed" \/ st = "failed") /\
        status_history "2" (trace (run_ops 3 opsDemo worldActive))
          = ["running"; st] /\
        status e = st /\ is_Some (completedAt e)
  end.
Proof.
  apply (execution_lifecycle 2 opsDemo worldActive); reflexivity.
Defined.

Example execution_lifecycle_demo :
  trace (run_ops 3 opsDemo worldActive) =
    [EvCreate "0" "running"; EvUpdate "0" "completed";
     EvCreate "1" "running"; EvUpdate "1" "completed";
     EvCreate "2" "running"; EvUpdate "2" "failed"] /\
  status <$> executions (run_ops 3 opsDemo worldActive) !! "2"
    = Some "failed".
Proof. split; vm_compute; done. Qed.

(** ** More on buildExecutionGraph *)

(** X1. When buildExecutionGraph returns, the own keys of the graph are
    exactly the declared node identifiers other than '__proto__': edges
    add no key, whatever their source or target, and a node named
    '__proto__' is not stored as a key, it replaces the prototype of the
    graph by an array. *)
Theorem buildExecutionGraph_dom (nodes' : list Node) (edges' : list Edge)
    (g : Graph) :
  Handlers.buildExecutionGraph nodes' edges' = Ret g ->
  (forall id, is_Some (own g !! id) <->
              id ∈ map nodeId nodes' /\ id <> "__proto__") /\
  (is_Some (proto g) <-> "__proto__" ∈ map nodeId nodes').
Proof.
  unfold Handlers.buildExecutionGraph. intros Hrun.
  apply add_edges_keys in Hrun as [Hdom Hproto]. split.
  - intros id. rewrite <- elem_of_dom, Hdom, elem_of_dom, init_own.
    simpl. rewrite lookup_empty.
    case_bool_decide as H; [split; eauto|].
    split; [by intros [? ?]|]. intros H'. by apply H in H'.
  - rewrite Hproto, init_proto. simpl.
    case_bool_decide as H; [split; eauto|].
    split; [by intros [? ?]|]. intros H'. by apply H in H'.
Qed.

Lemma buildExecutionGraph_dom_witness :
  let g := mkGraph (<["T" := ["B"; "C"]]> {["B" := []]}) None in
  Handlers.buildExecutionGraph [nodeT; nodeB] [edgeTB; edgeTC] = Ret g /\
  (forall id, is_Some (own g !! id) <->
              id ∈ map nodeId [nodeT; nodeB] /\ id <> "__proto__") /\
  (is_Some (proto g) <-> "__proto__" ∈ map nodeId [nodeT; nodeB]).
Proof.
  intros g. split; [reflexivity|].
  apply (buildExecutionGraph_dom [nodeT; nodeB] [edgeTB; edgeTC] g).
  reflexivity.
Defined.

(** X2. The graph depends on the nodes only through the set of their
    identifiers: their order, repetitions and other fields do not matter. *)
Theorem buildExecutionGraph_nodes_set
    (nodes1 nodes2 : list Node) (edges' : list Edge) :
  (forall id, id ∈ map nodeId nodes1 <-> id ∈ map nodeId nodes2) ->
  Handlers.buildExecutionGraph nodes1 edges' =
    Handlers.buildExecutionGraph nodes2 edges'.
Proof.
  intros Hsame. unfold Handlers.buildExecutionGraph. f_equal.
  apply Graph_eq.
  - intros id. rewrite !init_own.
    case_bool_decide as H1; case_bool_decide as H2; try done; exfalso.
    + apply H2. destruct H1 as [H1 ?]. split; [by apply Hsame|done].
    + apply H1. destruct H2 as [H2 ?]. split; [by apply Hsame|done].
  - rewrite !init_proto.
    case_bool_decide as H1; case_bool_decide as H2; try done; exfalso.
    + by apply H2, Hsame.
    + by apply H1, Hsame.
Qed.

Lemma buildExecutionGraph_nodes_set_witness :
  Handlers.buildExecutionGraph [nodeT; nodeB] [edgeTB; edgeTC] =
    Handlers.buildExecutionGraph
      [mkNode "B" "email" "other" VNull; nodeT; nodeT] [edgeTB; edgeTC].
Proof.
  apply (buildExecutionGraph_nodes_set [nodeT; nodeB]
           [mkNode "B" "email" "other" VNull; nodeT; nodeT]
           [edgeTB; edgeTC]).
  intros id. simpl. rewrite !elem_of_cons, !elem_of_nil. tauto.
Defined.

Lemma plain_graph_filter (nodes' : list Node) (edges' : list Edge) :
  plain_graph nodes' edges' ->
  plain_graph nodes'
    (filter (fun edge => sourceId edge ∈ map nodeId nodes') edges').
Proof.
  intros [Hn He]. split; [done|].
  induction He as [|e es H1 H2 IH]; [constructor|].
  rewrite filter_cons.
  destruct (decide (sourceId e ∈ map nodeId nodes')); [|done].
  by constructor.
Qed.

Lemma targets_of_filter (nodes' : list Node) (edges' : list Edge)
    (id : string) :
  id ∈ map nodeId nodes' ->
  targets_of id
    (filter (fun edge => sourceId edge ∈ map nodeId nodes') edges') =
  targets_of id edges'.
Proof.
  intros Hid. unfold targets_of. f_equal.
  induction edges' as [|e es IH]; [done|].
  rewrite !filter_cons.
  destruct (decide (sourceId e = id)) as [He|He].
  - rewrite decide_True by (by rewrite He).
    rewrite filter_cons, decide_True by done. by rewrite IH.
  - destruct (decide (sourceId e ∈ map nodeId nodes')); [|done].
    by rewrite filter_cons, decide_False.
Qed.

(** X3. When no node is named '__proto__' and every edge source that is
    not a declared node names nothing that Object.prototype holds,
    buildExecutionGraph returns a graph whose prototype is untouched and
    whose own properties map each declared identifier to the targets of
    its edges, in edge order, duplicates kept; the edges whose source is
    not a declared node have no effect at all: the graph is the one built
    from the remaining edges. *)
Theorem buildExecutionGraph_drops_undeclared
    (nodes' : list Node) (edges' : list Edge) :
  plain_graph nodes' edges' ->
  exists g,
    Handlers.buildExecutionGraph nodes' edges' = Ret g /\
    Handlers.buildExecutionGraph nodes'
      (filter (fun edge => sourceId edge ∈ map nodeId nodes') edges')
      = Ret g /\
    proto g = None /\
    forall id, own g !! id =
                 if bool_decide (id ∈ map nodeId nodes')
                 then Some (targets_of id edges') else None.
Proof.
  intros Hplain.
  destruct (buildExecutionGraph_plain nodes' edges' Hplain)
    as (g & Hrun & Hp & Hown).
  destruct (buildExecutionGraph_plain nodes' _
              (plain_graph_filter nodes' edges' Hplain))
    as (g' & Hrun' & Hp' & Hown').
  exists g. split; [done|]. split; [|done].
  rewrite Hrun'. f_equal. apply Graph_eq; [|congruence].
  intros id. rewrite Hown, Hown'.
  case_bool_decide as Hid; [|done]. by rewrite targets_of_filter.
Qed.

Lemma buildExecutionGraph_drops_undeclared_witness :
  exists g,
    Handlers.buildExecutionGraph [nodeT; nodeB]
      [edgeTB; mkEdge "X" "T"; edgeTC; edgeTB] = Ret g /\
    Handlers.buildExecutionGraph [nodeT; nodeB] [edgeTB; edgeTC; edgeTB]
      = Ret g /\
    proto g = None /\
    own g !! "T" = Some ["B"; "C"; "B"] /\
    own g !! "X" = None.
Proof.
  destruct (buildExecutionGraph_drops_undeclared [nodeT; nodeB]
              [edgeTB; mkEdge "X" "T"; edgeTC; edgeTB])
    as (g & H1 & H2 & H3 & H4).
  - split.
    + repeat constructor; discriminate.
    + repeat constructor; simpl;
        try (left; rewrite !elem_of_cons; tauto); by right.
  - exists g. split; [exact H1|]. split; [exact H2|]. split; [exact H3|].
    split; [exact (H4 "T")|exact (H4 "X")].
Defined.

(** X28. When no node is named '__proto__', buildExecutionGraph throws
    exactly when some edge has a source that is not a declared node and
    names something that Object.prototype holds ('constructor',
    'toString', '__proto__', ...); what it throws is the TypeError of the
    push. *)
Theorem buildExecutionGraph_throws_exactly
    (nodes' : list Node) (edges' : list Edge) :
  Forall (fun node => nodeId node <> "__proto__") nodes' ->
  (Handlers.buildExecutionGraph nodes' edges' =
     Throw (ErrorObj "graph[edge.sourceId].push is not a function") <->
   Exists (fun edge => (sourceId edge ∉ map nodeId nodes') /\
                       inherited (sourceId edge) = true) edges') /\
  (forall e, Handlers.buildExecutionGraph nodes' edges' = Throw e ->
             e = ErrorObj "graph[edge.sourceId].push is not a function").
Proof.
  intros Hn. split; [|apply buildExecutionGraph_throws].
  assert ("__proto__" ∉ map nodeId nodes') as Hno.
  { intros Hin. apply list_elem_of_fmap in Hin as (n & Heq & Hin).
    rewrite Forall_forall in Hn. by apply (Hn n). }
  unfold Handlers.buildExecutionGraph.
  rewrite add_edges_hazard
    by (rewrite init_proto; by rewrite bool_decide_eq_false_2).
  assert (forall id,
            own (foldl Handlers.add_node empty_graph nodes') !! id = None
            <-> id ∉ map nodeId nodes') as Hinit.
  { intros id. rewrite init_own. simpl. rewrite lookup_empty.
    case_bool_decide as H.
    - split; [done|]. intros Hin. by destruct H as [H _].
    - split; [|done]. intros _ Hin. apply H. split; [done|].
      by intros ->. }
  split; intros H; (eapply Exists_impl; [exact H|]);
    intros e [H1 H2]; (split; [by apply Hinit|done]).
Qed.

Lemma buildExecutionGraph_throws_exactly_witness :
  Handlers.buildExecutionGraph [nodeT; nodeB]
    [edgeTB; mkEdge "toString" "B"] =
    Throw (ErrorObj "graph[edge.sourceId].push is not a function").
Proof.
  apply (proj1 (buildExecutionGraph_throws_exactly [nodeT; nodeB]
                  [edgeTB; mkEdge "toString" "B"]
                  ltac:(repeat constructor; discriminate))).
  right. left. split; [|reflexivity].
  simpl. rewrite !elem_of_cons, elem_of_nil.
  intros [H|[H|H]]; [discriminate H|discriminate H|exact H].
Defined.

(** ** More on the visit *)

(** X4. executeNode needs one unit of fuel and never visits a child: it
    runs the handler of the node, which always returns, and then either
    returns the handler's result with [children: []], whatever the
    adjacency of the node holds (cycles included), or, when [graph[nodeId]]
    is an inherited value that cannot be iterated, throws 'childNodes is
    not iterable' in the world the handler left. Both copies. *)
Theorem executeNode_visits_no_child (fuel : nat) (node : Node)
    (graph : Graph) (context : obj) (w : World) :
  (exists result w',
     Route.dispatch node context w = (Ret result, w') /\
     Route.executeNode (S fuel) node graph context w =
       match Handlers.children_of graph (nodeId node) with
       | Throw _ => (Throw (ErrorObj "childNodes is not iterable"), w')
       | _ => (Ret (VObj (obj_set "children" (VArr []) result)), w')
       end) /\
  (exists result w',
     Scheduler.dispatch node context w = (Ret result, w') /\
     Scheduler.executeNode (S fuel) node graph context w =
       match Handlers.children_of graph (nodeId node) with
       | Throw _ => (Throw (ErrorObj "childNodes is not iterable"), w')
       | _ => (Ret (VObj (obj_set "children" (VArr []) result)), w')
       end).
Proof.
  split.
  - destruct (route_executeNode_run fuel node graph context w)
      as (result & w' & Hd & ->).
    exists result, w'. split; [done|].
    destruct (Handlers.children_of graph (nodeId node)) as [cs|e|] eqn:Hc;
      try done.
    by rewrite (children_of_throws _ _ _ Hc).
  - destruct (scheduler_executeNode_run fuel node graph context w)
      as (result & w' & Hd & ->).
    exists result, w'. split; [done|].
    destruct (Handlers.children_of graph (nodeId node)) as [cs|e|] eqn:Hc;
      try done.
    by rewrite (children_of_throws _ _ _ Hc).
Qed.

Example executeNode_cycle :
  let graph := mkGraph {["B" := ["B"]]} None in
  Route.executeNode 1 nodeB graph [] world0 =
    (Ret (VObj [("action", VStr "First"); ("executed", VBool true);
                ("timestamp", VIso 1000); ("children", VArr [])]),
     emit (EvSleep (VNum 1000) 1000) (set_now 1000 world0)) /\
  Route.executeNode 1 (mkNode "valueOf" "trigger" "Start" VNull) graph []
                    world0 =
    (Throw (ErrorObj "childNodes is not iterable"), world0).
Proof. split; reflexivity. Qed.

(** X5. The scheduler's executeNode has no case for 'slack': on a slack
    node it takes the default branch and leaves the world untouched (no
    wait, no message); it returns [{ executed: true, type: 'slack',
    children: [] }], unless the adjacency of the node cannot be iterated,
    in which case it throws. *)
Theorem scheduler_executeNode_slack (fuel : nat) (node : Node)
    (graph : Graph) (context : obj) (w : World) :
  type node = "slack" ->
  Scheduler.executeNode (S fuel) node graph context w =
    match Handlers.children_of graph (nodeId node) with
    | Throw e => (Throw e, w)
    | _ => (Ret (VObj [("executed", VBool true); ("type", VStr "slack");
                       ("children", VArr [])]), w)
    end.
Proof.
  intros Ht.
  destruct (scheduler_executeNode_run fuel node graph context w)
    as (result & w' & Hd & ->).
  unfold Scheduler.dispatch in Hd. rewrite Ht in Hd. simpl in Hd.
  by injection Hd as <- <-.
Qed.

Lemma scheduler_executeNode_slack_witness :
  Scheduler.executeNode 1 nodeS empty_graph [] worldSlackDown =
    (Ret (VObj [("executed", VBool true); ("type", VStr "slack");
                ("children", VArr [])]), worldSlackDown).
Proof.
  apply (scheduler_executeNode_slack 0 nodeS empty_graph [] worldSlackDown).
  reflexivity.
Defined.

(** X6. On every node whose type is not 'slack' the two copies of
    executeNode do the same thing. *)
Theorem executeNode_copies_agree (fuel : nat) (node : Node)
    (graph : Graph) (context : obj) (w : World) :
  type node <> "slack" ->
  Route.executeNode (S fuel) node graph context w =
    Scheduler.executeNode (S fuel) node graph context w.
Proof.
  intros Ht. apply String.eqb_neq in Ht.
  destruct (route_executeNode_run fuel node graph context w)
    as (r1 & w1 & Hd1 & ->).
  destruct (scheduler_executeNode_run fuel node graph context w)
    as (r2 & w2 & Hd2 & ->).
  assert (Route.dispatch node context w = Scheduler.dispatch node context w)
    as Heq.
  { unfold Route.dispatch, Scheduler.dispatch. by rewrite Ht. }
  rewrite Heq, Hd2 in Hd1. by injection Hd1 as <- <-.
Qed.

Lemma executeNode_copies_agree_witness :
  Route.executeNode 1 nodeD100 empty_graph [] world0 =
    Scheduler.executeNode 1 nodeD100 empty_graph [] world0.
Proof.
  apply (executeNode_copies_agree 0 nodeD100 empty_graph [] world0).
  by vm_compute.
Defined.

(** ** Whole runs *)

Lemma run_record_cases (cleared : bool) (workflow : Workflow)
    (rec : Execution) (t : Z) :
  let ended := run_record cleared workflow rec t in
  (first_trigger workflow = None ->
   ended = mkExecution (workflowId rec) "failed" (input rec) (output rec)
             (Some "No trigger node found in workflow") (startedAt rec)
             (Some t)) /\
  (forall e, is_Some (first_trigger workflow) ->
     Handlers.buildExecutionGraph (nodes workflow) (edges workflow)
       = Throw e ->
     ended = mkExecution (workflowId rec) "failed" (input rec) (output rec)
               (Some "graph[edge.sourceId].push is not a function")
               (startedAt rec) (Some t)) /\
  (forall g, is_Some (first_trigger workflow) ->
     Handlers.buildExecutionGraph (nodes workflow) (edges workflow)
       = Ret g ->
     ended = mkExecution (workflowId rec) "completed" (input rec)
               (Some (VObj [("triggered", VBool true);
                            ("timestamp", VIso t); ("children", VArr [])]))
               (if cleared then None else error rec) (startedAt rec)
               (Some t)).
Proof.
  unfold run_record. split; [by intros ->|]. split.
  - intros e [tn ->] Hb. rewrite Hb.
    by rewrite (buildExecutionGraph_throws _ _ _ Hb).
  - intros g [tn ->] Hb. by rewrite Hb.
Qed.

(** X7. A manual run of an active workflow answers 200 with the id of a
    new execution and status 'running', and leaves the run behind: when
    POST answers, the record has been created and reads 'running'. The run
    then ends the record with one write: failed with 'No trigger node found
    in workflow' when there is no trigger node, failed with the TypeError's
    message when the graph cannot be built, and otherwise completed with
    output [{ triggered, timestamp, children: [] }]. Whatever the graph, no
    other node ran: the clock has not moved and the only events are the
    two writes. *)
Theorem POST_active_run (fuel : nat) (id : string) (w : World)
    (workflow : Workflow) :
  workflows w !! id = Some workflow ->
  isActive workflow = true ->
  let ide := fresh (dom (executions w)) in
  let created := mkExecution id "running" [] None None (now w) None in
  exists w1 w2 ended,
    Route.POST id w =
      (Ret (Route.mkResponse 200
              [("executionId", VStr ide); ("status", VStr "running");
               ("message", VStr "Workflow execution started")],
            Some (Route.mkBackground workflow ide)), w1) /\
    executions w1 = <[ide := created]> (executions w) /\
    trace w1 = trace w ++ [EvCreate ide "running"] /\
    Route.background (S fuel) (Route.mkBackground workflow ide) w1
      = (Ret tt, w2) /\
    executions w2 = <[ide := ended]> (executions w) /\
    trace w2 = trace w1 ++ [EvUpdate ide (status ended)] /\
    now w2 = now w /\
    (first_trigger workflow = None ->
     ended = mkExecution id "failed" [] None
               (Some "No trigger node found in workflow") (now w)
               (Some (now w))) /\
    (forall e, is_Some (first_trigger workflow) ->
       Handlers.buildExecutionGraph (nodes workflow) (edges workflow)
         = Throw e ->
       ended = mkExecution id "failed" [] None
                 (Some "graph[edge.sourceId].push is not a function")
                 (now w) (Some (now w))) /\
    (forall g, is_Some (first_trigger workflow) ->
       Handlers.buildExecutionGraph (nodes workflow) (edges workflow)
         = Ret g ->
       ended = mkExecution id "completed" []
                 (Some (VObj [("triggered", VBool true);
                              ("timestamp", VIso (now w));
                              ("children", VArr [])]))
                 None (now w) (Some (now w))).
Proof.
  intros Hwf Hact ide created.
  eexists _, _, (run_record true workflow created (now w)).
  split; [exact (POST_active id w workflow Hwf Hact)|].
  fold ide created.
  set (w1 := emit (EvCreate ide "running")
               (set_executions (<[ide := created]> (executions w)) w)).
  assert (executions w1 !! ide = Some created) as Hrec.
  { destruct w; simpl. apply lookup_insert_eq. }
  split; [by destruct w|]. split; [by destruct w|].
  split; [exact (background_run fuel workflow ide w1 created Hrec)|].
  split; [destruct w; simpl; by rewrite insert_insert_eq|].
  split; [by destruct w|]. split; [by destruct w|].
  exact (run_record_cases true workflow created (now w)).
Qed.

Lemma POST_active_run_witness :
  exists w1 w2,
    Route.POST "wf1" worldHazard =
      (Ret (Route.mkResponse 200
              [("executionId", VStr "0"); ("status", VStr "running");
               ("message", VStr "Workflow execution started")],
            Some (Route.mkBackground workflowHazard "0")), w1) /\
    status <$> executions w1 !! "0" = Some "running" /\
    Route.background 1 (Route.mkBackground workflowHazard "0") w1
      = (Ret tt, w2) /\
    executions w2 =
      <["0" := mkExecution "wf1" "failed" [] None
                 (Some "graph[edge.sourceId].push is not a function") 0
                 (Some 0%Z)]> ∅ /\
    trace w2 = [EvCreate "0" "running"; EvUpdate "0" "failed"].
Proof.
  destruct (POST_active_run 0 "wf1" worldHazard workflowHazard
              eq_refl eq_refl)
    as (w1 & w2 & ended & H1 & H2 & H3 & H4 & H5 & H6 & _ & _ & H7 & _).
  exists w1, w2. split; [exact H1|].
  split; [rewrite H2; reflexivity|]. split; [exact H4|].
  assert (ended = mkExecution "wf1" "failed" [] None
                    (Some "graph[edge.sourceId].push is not a function") 0
                    (Some 0%Z)) as Hended.
  { apply (H7 (ErrorObj "graph[edge.sourceId].push is not a function"));
      [by eexists|reflexivity]. }
  rewrite Hended in H5, H6.
  split; [exact H5|]. rewrite H6, H3. reflexivity.
Defined.

(** X8. The run-now endpoint always answers, and never with 500: 404 for
    an unknown workflow, 400 for an inactive one, 200 for an active one;
    in the first two cases the world is unchanged and no run is started. *)
Theorem POST_status (id : string) (w : World) :
  exists r b w',
    Route.POST id w = (Ret (r, b), w') /\
    Route.http_status r =
      match workflows w !! id with
      | None => 404%Z
      | Some workflow => if isActive workflow then 200%Z else 400%Z
      end /\
    (Route.http_status r <> 200%Z -> w' = w /\ b = None).
Proof.
  destruct (workflows w !! id) as [workflow|] eqn:Hwf.
  - destruct (isActive workflow) eqn:Hact.
    + rewrite (POST_active id w workflow Hwf Hact). by eexists _, _, _.
    + destruct (POST_refused id w) as (r & -> & Hr).
      { intros wf. rewrite Hwf. by intros [= <-]. }
      rewrite Hwf in Hr. by eexists _, _, _.
  - destruct (POST_refused id w) as (r & -> & Hr).
    { intros wf. by rewrite Hwf. }
    rewrite Hwf in Hr. by eexists _, _, _.
Qed.

(** X9. A timer fire of an active workflow creates an execution with input
    [{ triggeredBy: 'scheduler' }] and ends it before it returns, with the
    same three outcomes as a manual run: failed without a trigger node,
    failed with the TypeError's message when the graph cannot be built,
    completed with [children: []] otherwise; the error column is left as
    created on success. *)
Theorem executeScheduledWorkflow_active (fuel : nat) (id : string)
    (w : World) (workflow : Workflow) :
  workflows w !! id = Some workflow ->
  isActive workflow = true ->
  let ide := fresh (dom (executions w)) in
  exists w' ended,
    Scheduler.executeScheduledWorkflow (S fuel) id w = (Ret tt, w') /\
    executions w' = <[ide := ended]> (executions w) /\
    trace w' =
      trace w ++ [EvCreate ide "running"; EvUpdate ide (status ended)] /\
    now w' = now w /\
    (first_trigger workflow = None ->
     ended = mkExecution id "failed" [("triggeredBy", VStr "scheduler")]
               None (Some "No trigger node found in workflow") (now w)
               (Some (now w))) /\
    (forall e, is_Some (first_trigger workflow) ->
       Handlers.buildExecutionGraph (nodes workflow) (edges workflow)
         = Throw e ->
       ended = mkExecution id "failed" [("triggeredBy", VStr "scheduler")]
                 None (Some "graph[edge.sourceId].push is not a function")
                 (now w) (Some (now w))) /\
    (forall g, is_Some (first_trigger workflow) ->
       Handlers.buildExecutionGraph (nodes workflow) (edges workflow)
         = Ret g ->
       ended = mkExecution id "completed"
                 [("triggeredBy", VStr "scheduler")]
                 (Some (VObj [("triggered", VBool true);
                              ("timestamp", VIso (now w));
                              ("children", VArr [])]))
                 None (now w) (Some (now w))).
Proof.
  intros Hwf Hact ide.
  eexists _, _.
  split; [exact (executeScheduledWorkflow_active_run fuel id w workflow
                   Hwf Hact)|].
  split; [by destruct w|].
  split; [destruct w; simpl; by rewrite <- app_assoc|].
  split; [by destruct w|].
  exact (run_record_cases false workflow
           (mkExecution id "running" [("triggeredBy", VStr "scheduler")]
                        None None (now w) None) (now w)).
Qed.

Lemma executeScheduledWorkflow_active_witness :
  exists w',
    Scheduler.executeScheduledWorkflow 1 "wf1" worldActive = (Ret tt, w') /\
    executions w' =
      <["0" :=
          mkExecution "wf1" "completed" [("triggeredBy", VStr "scheduler")]
            (Some (VObj [("triggered", VBool true); ("timestamp", VIso 0);
                         ("children", VArr [])]))
            None 0 (Some 0%Z)]> ∅ /\
    trace w' = [EvCreate "0" "running"; EvUpdate "0" "completed"] /\
    now w' = 0%Z.
Proof.
  destruct (executeScheduledWorkflow_active 0 "wf1" worldActive workflowT
              eq_refl eq_refl)
    as (w' & ended & H1 & H2 & H3 & H4 & _ & _ & H5).
  exists w'. split; [exact H1|].
  assert (ended = mkExecution "wf1" "completed"
                    [("triggeredBy", VStr "scheduler")]
                    (Some (VObj [("triggered", VBool true);
                                 ("timestamp", VIso 0);
                                 ("children", VArr [])]))
                    None 0 (Some 0%Z)) as Hended.
  { apply (H5 (mkGraph {["B" := []; "T" := []]} None));
      [by eexists|reflexivity]. }
  rewrite Hended in H2, H3.
  split; [exact H2|]. split; [exact H3|exact H4].
Defined.

(** X10. A timer fire never throws, and for a workflow that is missing or
    inactive it does nothing at all. *)
Theorem executeScheduledWorkflow_skips (fuel : nat) (id : string)
    (w : World) :
  exists w',
    Scheduler.executeScheduledWorkflow (S fuel) id w = (Ret tt, w') /\
    ((forall workflow, workflows w !! id = Some workflow ->
                       isActive workflow = false) -> w' = w).
Proof.
  destruct (workflows w !! id) as [workflow|] eqn:Hwf.
  - destruct (isActive workflow) eqn:Hact.
    + rewrite (executeScheduledWorkflow_active_run fuel id w workflow
                 Hwf Hact).
      eexists. split; [done|]. intros H.
      specialize (H workflow eq_refl). congruence.
    + rewrite executeScheduledWorkflow_skip; [by eexists|].
      intros wf Hq. rewrite Hwf in Hq. by injection Hq as <-.
  - rewrite executeScheduledWorkflow_skip; [by eexists|].
    intros wf Hq. by rewrite Hwf in Hq.
Qed.

(** X11. The scheduler's runWorkflow and the route's executeWorkflow write
    the same thing to a record whose error column is empty (as it is on a
    record just created): the two copies of the engine agree on status,
    output, error and completedAt. *)
Theorem runWorkflow_agrees (fuel : nat) (workflow : Workflow) (id : string)
    (w : World) (rec : Execution) :
  executions w !! id = Some rec ->
  error rec = None ->
  Scheduler.runWorkflow (S fuel) workflow id w =
    Route.executeWorkflow (S fuel) workflow id w.
Proof.
  intros Hrec Herr.
  rewrite (runWorkflow_run fuel workflow id w rec Hrec),
    (executeWorkflow_run fuel workflow id w rec Hrec).
  assert (run_record false workflow rec (now w) =
          run_record true workflow rec (now w)) as ->; [|done].
  unfold run_record. by rewrite Herr.
Qed.

Lemma runWorkflow_agrees_witness :
  Scheduler.runWorkflow 1 workflowT "e1" worldRunning =
    Route.executeWorkflow 1 workflowT "e1" worldRunning.
Proof.
  apply (runWorkflow_agrees 0 workflowT "e1" worldRunning
           (mkExecution "wf1" "running" [] None None 0 None));
    reflexivity.
Defined.
(** ** The Slack service and its routes *)

Lemma sendMessage_run (channel text blocks thread_ts : value) (w : World)
    (c : PostArgs -> PostOutcome) (cfg : SlackConfig) :
  client w = Some c -> slackConfig w = Some cfg ->
  let args := mkPostArgs (js_or channel (VStr (defaultChannel cfg)))
                         text blocks thread_ts in
  SlackService.sendMessage channel text blocks thread_ts w =
    (Ret match c args with
         | PostResult true t _ => SlackService.mkSendResult true t VUndefined
         | PostResult false _ err =>
             SlackService.mkSendResult false VUndefined
               (js_or err (VStr "Unknown error"))
         | PostThrows e =>
             SlackService.mkSendResult false VUndefined
               (VStr (caught_message e))
         end,
     emit (EvPost args) w).
Proof.
  intros Hc Hcfg args.
  unfold SlackService.sendMessage, bind, get_world. rewrite Hc, Hcfg.
  unfold try_catch, bind, SlackService.postMessage. fold args.
  by destruct (c args) as [[] t err|e].
Qed.

Lemma sendMessage_off (channel text blocks thread_ts : value) (w : World) :
  client w = None \/ slackConfig w = None ->
  SlackService.sendMessage channel text blocks thread_ts w =
    (Ret (SlackService.mkSendResult false VUndefined
            (VStr "Slack not configured")), w).
Proof.
  intros H. unfold SlackService.sendMessage, bind, get_world.
  destruct H as [-> | ->]; [done|]. by destruct (client w).
Qed.

(** X12. sendMessage never throws. Without a client or a configuration it
    answers 'Slack not configured' and calls nothing; otherwise it calls
    chat.postMessage exactly once, on the given channel or, when that is
    falsy, on the default channel, and reports success exactly when the
    API answered [ok: true]. *)
Theorem sendMessage_posts_once
    (channel text blocks thread_ts : value) (w : World) :
  exists r w',
    SlackService.sendMessage channel text blocks thread_ts w = (Ret r, w') /\
    match client w, slackConfig w with
    | Some c, Some cfg =>
        let args := mkPostArgs (js_or channel (VStr (defaultChannel cfg)))
                               text blocks thread_ts in
        w' = emit (EvPost args) w /\
        (SlackService.success r = true <->
         exists t err, c args = PostResult true t err)
    | _, _ =>
        w' = w /\
        r = SlackService.mkSendResult false VUndefined
              (VStr "Slack not configured")
    end.
Proof.
  destruct (client w) as [c|] eqn:Hc.
  - destruct (slackConfig w) as [cfg|] eqn:Hcfg.
    + rewrite (sendMessage_run _ _ _ _ w c cfg Hc Hcfg).
      eexists _, _. split; [reflexivity|]. split; [done|].
      destruct (c _) as [[] t err|e]; simpl; split; try done; eauto.
      * by intros (? & ? & ?).
      * by intros (? & ? & ?).
    + rewrite (sendMessage_off _ _ _ _ w) by by right. by eexists _, _.
  - rewrite (sendMessage_off _ _ _ _ w) by by left. by eexists _, _.
Qed.

Lemma truthy_js_or_default (v : value) (s : string) :
  s <> "" -> truthy (js_or v (VStr s)) = true.
Proof.
  intros Hs. unfold js_or. destruct (truthy v) eqn:E; [done|].
  simpl. apply String.eqb_neq in Hs. by rewrite Hs.
Qed.

(** X13. A slack node always waits 1500 ms first. When the service is
    configured it then posts exactly once, to config.channel or, when that
    is falsy, to '#general': the default channel of the service is never
    used for a workflow node. When the service is not configured nothing
    is posted. *)
Theorem executeSlack_trace (node : Node) (context : obj) (w : World) :
  trace (Route.executeSlack node context w).2 =
    trace w ++
    EvSleep (VNum 1500) 1500 ::
    match client w, slackConfig w with
    | Some _, Some _ =>
        [EvPost (mkPostArgs
                   (js_or (opt_get (config node) "channel")
                          (VStr "#general"))
                   (js_or (opt_get (config node) "message")
                          (VStr ("Workflow executed: " +:+ title node)))
                   (opt_get (config node) "blocks") VUndefined)]
    | _, _ => []
    end.
Proof.
  destruct w as [t rnd d [c|] [cfg|] wfs exs sws tks tr];
    unfold Route.executeSlack, SlackService.sendMessage,
      SlackService.postMessage, SlackService.isConfigured;
    cbv [bind try_catch get_world sleep modify iso_now ret emit set_now
         client slackConfig bool_decide is_Some_dec decide_rel andb];
    try reflexivity.
  unfold js_or at 1 4 7.
  rewrite (truthy_js_or_default _ "#general") by done.
  destruct (c _) as [[] ts err|e]; simpl; by rewrite <- app_assoc.
Qed.

Section SlackRoutes.
Variable ToString : value -> string.
Variable toUpperCase : string -> string.
Variable toLocaleString : Z -> string.
Variable JSON_stringify : value -> string.
Variable TypeError_message : value -> string.

Let notify :=
  SlackService.sendWorkflowNotification ToString toUpperCase toLocaleString
    JSON_stringify TypeError_message.

Let send_POST :=
  SlackSendRoute.POST ToString toUpperCase toLocaleString JSON_stringify
    TypeError_message.

Lemma notify_run (workflowName details : value) (s : string) (w : World)
    (c : PostArgs -> PostOutcome) (cfg : SlackConfig) :
  client w = Some c -> slackConfig w = Some cfg ->
  exists r text blocks,
    notify workflowName (VStr s) details w =
      (Ret r,
       emit (EvPost (mkPostArgs (VStr (defaultChannel cfg)) (VStr text)
                                (VArr blocks) VUndefined)) w) /\
    length blocks = (if truthy details then 4 else 3) /\
    (SlackService.success r = true <->
     exists t err,
       c (mkPostArgs (VStr (defaultChannel cfg)) (VStr text) (VArr blocks)
                     VUndefined) = PostResult true t err).
Proof.
  intros Hc Hcfg.
  unfold notify, SlackService.sendWorkflowNotification,
    SlackService.upper_status, bind, new_Date.
  rewrite (sendMessage_run _ _ _ _ w c cfg Hc Hcfg).
  eexists _, _, _. split; [reflexivity|]. split.
  - by destruct (truthy details).
  - destruct (c _) as [[] t err|e]; simpl; split; try done; eauto.
    + by intros (? & ? & ?).
    + by intros (? & ? & ?).
Qed.

(** X14. A workflow notification whose status has no toUpperCase method (a
    number, a boolean, an object, null) throws before anything is posted,
    whether or not the service is configured. With a string status and the
    service configured, the notification is posted exactly once and always
    to the default channel of the service, with three blocks, or four when
    details are given; with a string status and the service not
    configured, nothing is posted and the answer is 'Slack not
    configured'. *)
Theorem sendWorkflowNotification_posts
    (workflowName status' details : value) (w : World) :
  (forall s, status' = VStr s ->
     match client w, slackConfig w with
     | Some c, Some cfg =>
         exists r text blocks,
           notify workflowName status' details w =
             (Ret r,
              emit (EvPost (mkPostArgs (VStr (defaultChannel cfg))
                                       (VStr text) (VArr blocks) VUndefined))
                   w) /\
           length blocks = (if truthy details then 4 else 3)
     | _, _ =>
         notify workflowName status' details w =
           (Ret (SlackService.mkSendResult false VUndefined
                   (VStr "Slack not configured")), w)
     end) /\
  (SlackService.upper_status ToString toUpperCase status' = None ->
   notify workflowName status' details w =
     (Throw (ErrorObj (TypeError_message status')), w)).
Proof.
  split.
  - intros s ->.
    destruct (client w) as [c|] eqn:Hc.
    + destruct (slackConfig w) as [cfg|] eqn:Hcfg.
      * destruct (notify_run workflowName details s w c cfg Hc Hcfg)
          as (r & text & blocks & H1 & H2 & _).
        by exists r, text, blocks.
      * unfold notify, SlackService.sendWorkflowNotification,
          SlackService.upper_status, bind, new_Date.
        by rewrite sendMessage_off by (by right).
    + unfold notify, SlackService.sendWorkflowNotification,
        SlackService.upper_status, bind, new_Date.
      by rewrite sendMessage_off by (by left).
  - intros Hs. unfold notify, SlackService.sendWorkflowNotification.
    by rewrite Hs.
Qed.

Lemma isConfigured_run (w : World) :
  SlackService.isConfigured w =
    (Ret match client w, slackConfig w with
         | Some _, Some _ => true
         | _, _ => false
         end, w).
Proof.
  unfold SlackService.isConfigured.
  by destruct (client w), (slackConfig w).
Qed.


(** X16. A custom message (no workflow name or no status) sent while the
    service is configured is posted exactly once, to the requested channel
    or the default one; the route answers 200 with the timestamp of the
    API when it said [ok: true] and 500 with an error otherwise. *)
Theorem send_POST_custom
    (channel message workflowName status' details : value) (w : World)
    (c : PostArgs -> PostOutcome) (cfg : SlackConfig) :
  client w = Some c -> slackConfig w = Some cfg ->
  truthy message = true ->
  truthy workflowName && truthy status' = false ->
  let args := mkPostArgs (js_or channel (VStr (defaultChannel cfg)))
                         message VUndefined VUndefined in
  exists r,
    send_POST channel message workflowName status' details w =
      (Ret r, emit (EvPost args) w) /\
    match c args with
    | PostResult true t _ =>
        r = Route.mkResponse 200
              [("success", VBool true);
               ("message", VStr "Message sent successfully");
               ("timestamp", t)]
    | _ => Route.http_status r = 500%Z
    end.
Proof.
  intros Hc Hcfg Hm Hn args.
  unfold send_POST, SlackSendRoute.POST, try_catch, bind.
  rewrite Hm. cbn [negb]. rewrite isConfigured_run, Hc, Hcfg. cbn [negb].
  rewrite Hn.
  rewrite (sendMessage_run _ _ _ _ w c cfg Hc Hcfg). fold args.
  destruct (c args) as [[] t err|e]; simpl; by eexists.
Qed.

(** X17. A workflow notification request ignores the channel and the text
    of the message: any two requests that differ only there, both with a
    non-empty message, do the same thing. *)
Theorem send_POST_notification_ignores
    (channel1 channel2 message1 message2 workflowName status' details : value)
    (w : World) :
  truthy message1 = true -> truthy message2 = true ->
  truthy workflowName = true -> truthy status' = true ->
  send_POST channel1 message1 workflowName status' details w =
    send_POST channel2 message2 workflowName status' details w.
Proof.
  intros H1 H2 Hn Hs.
  unfold send_POST, SlackSendRoute.POST. by rewrite H1, H2, Hn, Hs.
Qed.

(** X18. While the service is configured, a notification request with a
    non-empty message and a workflow name whose status is truthy but not a
    string (a number, true, an object) is answered 500 'Failed to send
    Slack message' and nothing is posted: the TypeError of
    status.toUpperCase() is what the route's catch-all reports. *)
Theorem send_POST_status_not_string
    (channel message workflowName status' details : value) (w : World)
    (c : PostArgs -> PostOutcome) (cfg : SlackConfig) :
  client w = Some c -> slackConfig w = Some cfg ->
  truthy message = true -> truthy workflowName = true ->
  truthy status' = true ->
  SlackService.upper_status ToString toUpperCase status' = None ->
  send_POST channel message workflowName status' details w =
    (Ret (Route.mkResponse 500
            [("error", VStr "Failed to send Slack message")]), w).
Proof.
  intros Hc Hcfg Hm Hn Hs Hup.
  unfold send_POST, SlackSendRoute.POST, try_catch, bind.
  rewrite Hm. cbn [negb]. rewrite isConfigured_run, Hc, Hcfg. cbn [negb].
  rewrite Hn, Hs. cbn [andb].
  unfold SlackService.sendWorkflowNotification. by rewrite Hup.
Qed.

End SlackRoutes.

Section SlackConfig.
Variable new_WebClient : string -> PostArgs -> PostOutcome.
Variable auth_test : (PostArgs -> PostOutcome) -> SlackService.AuthOutcome.
Variable conversations_list
  : (PostArgs -> PostOutcome) -> SlackService.ListOutcome.
Variable ToString : value -> string.


Let config_GET := SlackConfigRoute.GET conversations_list.


(** X20. Reading the configuration never fails and changes nothing: the
    answer is 200, its isConfigured field tells whether a client and a
    configuration are set, and channels is the empty list whenever the
    service is not configured or the channel listing did not succeed. *)
Theorem config_GET_answers (w : World) :
  exists body,
    config_GET w = (Ret (Route.mkResponse 200 body), w) /\
    obj_get "isConfigured" body =
      VBool match client w, slackConfig w with
            | Some _, Some _ => true
            | _, _ => false
            end /\
    match client w, slackConfig w with
    | Some c, Some _ =>
        match conversations_list c with
        | SlackService.ListResult true _ _ => True
        | _ => obj_get "channels" body = VArr []
        end
    | _, _ => obj_get "channels" body = VArr []
    end.
Proof.
  destruct w as [t rnd d [c|] [cfg|] wfs exs sws tks tr];
    unfold config_GET;
    cbv [SlackConfigRoute.GET try_catch bind SlackService.getConfig
         get_world ret SlackService.isConfigured client slackConfig
         bool_decide is_Some_dec decide_rel andb SlackService.getChannels
         fst snd];
    try (eexists; split; [reflexivity|done]).
  destruct (conversations_list c) as [[] chs err|e];
    cbv [SlackService.channels_success SlackService.channels_list];
    (eexists; split; [reflexivity|done]).
Qed.

End SlackConfig.

(** ** More on the scheduler *)

(** X21. unscheduleWorkflow never throws and is idempotent: a second call
    for the same workflow changes nothing, and so does a first call for a
    workflow that has no binding. *)
Theorem unscheduleWorkflow_idempotent (id : string) (w : World) :
  exists w1,
    Scheduler.unscheduleWorkflow id w = (Ret tt, w1) /\
    Scheduler.unscheduleWorkflow id w1 = (Ret tt, w1) /\
    (scheduledWorkflows w !! id = None -> w1 = w).
Proof.
  assert (forall w', scheduledWorkflows w' !! id = None ->
            Scheduler.unscheduleWorkflow id w' = (Ret tt, w')) as Hno.
  { intros w' H. unfold Scheduler.unscheduleWorkflow, bind, get_world.
    by rewrite H. }
  eexists. split; [apply unscheduleWorkflow_run|]. split.
  - apply Hno. destruct w; simpl. apply lookup_delete_eq.
  - intros H. pose proof (unscheduleWorkflow_run id w) as Hrun.
    rewrite Hno in Hrun by done. by injection Hrun.
Qed.

(** X22. Scheduling a workflow that had no binding and unscheduling it
    again restores the binding map; what remains is the timer that was
    created, stopped. *)
Theorem schedule_unschedule (validate : string -> bool) (id e : string)
    (w : World) :
  validate e = true ->
  scheduledWorkflows w !! id = None ->
  exists w1 w2,
    Scheduler.scheduleWorkflow validate id e w = (Ret tt, w1) /\
    Scheduler.unscheduleWorkflow id w1 = (Ret tt, w2) /\
    scheduledWorkflows w2 = scheduledWorkflows w /\
    tasks w2 = tasks w ++ [mkCronTask e id false].
Proof.
  intros Hv Hnone. eexists _, _.
  split; [by apply scheduleWorkflow_run|].
  split; [apply unscheduleWorkflow_run|].
  destruct w as [t rnd d cl sc wfs exs sws tks tr].
  unfold stop_bound; simpl in *. rewrite Hnone, lookup_insert_eq. simpl.
  split.
  - rewrite delete_insert_eq. by apply delete_id.
  - rewrite alter_app_r_alt by lia. by rewrite Nat.sub_diag.
Qed.

Lemma schedule_unschedule_witness :
  exists w1 w2,
    Scheduler.scheduleWorkflow five_fields "wf2" "0 9 * * 1" worldScheduled
      = (Ret tt, w1) /\
    Scheduler.unscheduleWorkflow "wf2" w1 = (Ret tt, w2) /\
    scheduledWorkflows w2 = scheduledWorkflows worldScheduled /\
    tasks w2 = tasks worldScheduled ++ [mkCronTask "0 9 * * 1" "wf2" false].
Proof.
  apply (schedule_unschedule five_fields "wf2" "0 9 * * 1" worldScheduled);
    reflexivity.
Defined.

Lemma shutdown_run (w : World) :
  Scheduler.shutdown w =
    (Ret tt,
     set_scheduledWorkflows ∅
       (set_tasks (stop_all (map_to_list (scheduledWorkflows w)) (tasks w))
                  w)).
Proof. reflexivity. Qed.

Lemma stop_all_running (l : list (string * ScheduledWorkflow))
    (ts : list CronTask) (i : nat) (t : CronTask) :
  stop_all l ts !! i = Some t -> task_running t = true ->
  ts !! i = Some t /\ forall kv, kv ∈ l -> sw_task kv.2 <> i.
Proof.
  induction l as [|kv l IH]; simpl; intros Hi Hrun.
  - split; [done|]. intros kv H. by apply elem_of_nil in H.
  - destruct (decide (sw_task kv.2 = i)) as [<-|Hne].
    + rewrite list_lookup_alter_eq in Hi.
      destruct (stop_all l ts !! sw_task kv.2); [|done].
      injection Hi as <-. done.
    + rewrite list_lookup_alter_ne in Hi by done.
      destruct (IH Hi Hrun) as [Ht Hl]. split; [done|].
      intros kv' [->|H]%elem_of_cons; [done|]. by apply Hl.
Qed.

(** X23. shutdown removes every binding, and when every running timer was
    the one its workflow was bound to, no timer is running afterwards; a
    second shutdown changes nothing. *)
Theorem shutdown_stops_everything (w : World) :
  sched_ok w ->
  exists w',
    Scheduler.shutdown w = (Ret tt, w') /\
    scheduledWorkflows w' = ∅ /\
    (forall i t, tasks w' !! i = Some t -> task_running t = false) /\
    Scheduler.shutdown w' = (Ret tt, w').
Proof.
  intros Hok. eexists. split; [apply shutdown_run|].
  destruct w as [tm rnd d cl sc wfs exs sws tks tr]. simpl.
  split; [done|]. split.
  - intros i t Hi. destruct (task_running t) eqn:Hrun; [|done].
    exfalso.
    destruct (stop_all_running _ _ _ _ Hi Hrun) as [Ht Hl].
    destruct (Hok i t Ht Hrun) as (sw & Hsw & Htask). simpl in *.
    apply elem_of_map_to_list in Hsw. by apply Hl in Hsw.
  - rewrite shutdown_run. simpl. by rewrite map_to_list_empty.
Qed.

Lemma shutdown_stops_everything_witness :
  exists w',
    Scheduler.shutdown worldScheduled = (Ret tt, w') /\
    scheduledWorkflows w' = ∅ /\
    (forall i t, tasks w' !! i = Some t -> task_running t = false) /\
    Scheduler.shutdown w' = (Ret tt, w').
Proof.
  apply (shutdown_stops_everything worldScheduled).
  apply (scheduled_ok "wf1" "*/5 * * * *" world0).
  apply sched_ok_no_tasks. reflexivity.
Defined.

Lemma stop_bound_other (id id' : string) (w : World)
    (sw' : ScheduledWorkflow) :
  sched_inv w -> scheduledWorkflows w !! id' = Some sw' -> id' <> id ->
  stop_bound id w !! sw_task sw' =
    Some (mkCronTask (sw_schedule sw') id' true).
Proof.
  intros [_ Hb] Hsw' Hne. unfold stop_bound.
  destruct (scheduledWorkflows w !! id) as [sw|] eqn:Hsw;
    [|by apply Hb].
  rewrite list_lookup_alter_ne; [by apply Hb|].
  intros Heq. pose proof (Hb _ _ Hsw) as H1. pose proof (Hb _ _ Hsw') as H2.
  rewrite Heq in H1. congruence.
Qed.

Lemma sched_inv_scheduled (id e : string) (w : World) :
  sched_inv w -> sched_inv (scheduled id e w).
Proof.
  intros Hinv. split; [apply scheduled_ok, Hinv|].
  intros id' sw' Hsw'.
  destruct (decide (id' = id)) as [->|Hne].
  - assert (sw' = mkScheduledWorkflow id id e (length (tasks w))) as ->.
    { destruct w; simpl in *. rewrite lookup_insert_eq in Hsw'. congruence. }
    apply scheduled_new_task.
  - assert (scheduledWorkflows w !! id' = Some sw') as Hold.
    { destruct w; simpl in *. by rewrite lookup_insert_ne in Hsw'. }
    pose proof (stop_bound_other id id' w sw' Hinv Hold Hne) as Hk.
    destruct w as [tm rnd d cl sc wfs exs sws tks tr]. simpl.
    rewrite lookup_app_l; [done|].
    by apply lookup_lt_Some in Hk.
Qed.

Lemma sched_inv_unscheduled (id : string) (w : World) :
  sched_inv w -> sched_inv (Scheduler.unscheduleWorkflow id w).2.
Proof.
  intros Hinv. split; [apply unscheduleWorkflow_ok, Hinv|].
  rewrite unscheduleWorkflow_run. intros id' sw' Hsw'.
  assert (id' <> id /\ scheduledWorkflows w !! id' = Some sw') as [Hne Hold].
  { destruct w; simpl in *.
    apply lookup_delete_Some in Hsw' as [? ?]. done. }
  pose proof (stop_bound_other id id' w sw' Hinv Hold Hne) as Hk.
  by destruct w.
Qed.

Lemma sched_inv_shutdown (w : World) :
  sched_inv w -> sched_inv (Scheduler.shutdown w).2.
Proof.
  intros [Hok _]. rewrite shutdown_run.
  destruct w as [tm rnd d cl sc wfs exs sws tks tr]. split.
  - intros i t Hi Hrun. exfalso. simpl in *.
    destruct (stop_all_running _ _ _ _ Hi Hrun) as [Ht Hl].
    destruct (Hok i t Ht Hrun) as (sw & Hsw & Htask). simpl in *.
    apply elem_of_map_to_list in Hsw. by apply Hl in Hsw.
  - intros id sw H. simpl in H. by rewrite lookup_empty in H.
Qed.

Lemma sched_inv_schedule (validate : string -> bool) (id e : string)
    (w : World) :
  sched_inv w -> sched_inv (Scheduler.scheduleWorkflow validate id e w).2.
Proof.
  intros Hinv. destruct (validate e) eqn:Hv.
  - rewrite scheduleWorkflow_run by done. by apply sched_inv_scheduled.
  - unfold Scheduler.scheduleWorkflow. by rewrite Hv.
Qed.

Lemma sched_inv_initialize_loop (validate : string -> bool)
    (rows : list (string * string)) (w : World) :
  sched_inv w -> sched_inv (Scheduler.initialize_loop validate rows w).2.
Proof.
  revert w. induction rows as [|[id s] rows IH]; intros w Hinv; [done|].
  simpl. unfold bind at 1.
  destruct (negb (String.eqb s "")).
  - pose proof (sched_inv_schedule validate id s w Hinv) as H.
    destruct (Scheduler.scheduleWorkflow validate id s w) as [[[]| |] w1];
      simpl in *; [by apply IH|done..].
  - by apply IH.
Qed.

Lemma sched_inv_op (validate : string -> bool) (o : SchedOp) (w : World) :
  sched_inv w -> sched_inv (run_sched_op validate o w).
Proof.
  intros Hinv. destruct o as [id e|id|id [e|]| |]; simpl.
  - by apply sched_inv_schedule.
  - by apply sched_inv_unscheduled.
  - destruct (negb (String.eqb e "")).
    + by apply sched_inv_schedule.
    + by apply sched_inv_unscheduled.
  - by apply sched_inv_unscheduled.
  - by apply sched_inv_initialize_loop.
  - by apply sched_inv_shutdown.
Qed.

Lemma sched_inv_ops (validate : string -> bool) (ops : list SchedOp)
    (w : World) :
  sched_inv w -> sched_inv (run_sched_ops validate ops w).
Proof.
  revert w. induction ops as [|o ops IH]; intros w Hinv; [done|].
  simpl. by apply IH, sched_inv_op.
Qed.

Lemma sched_inv_timers (id : string) (w : World) :
  sched_inv w ->
  active_timers id w =
    match scheduledWorkflows w !! id with
    | Some sw => [sw_task sw]
    | None => []
    end.
Proof.
  intros [Hok Hb]. unfold active_timers.
  destruct (scheduledWorkflows w !! id) as [sw|] eqn:Hsw.
  - pose proof (Hb _ _ Hsw) as Ht.
    apply filter_seq_single.
    + by apply lookup_lt_Some in Ht.
    + rewrite Ht. simpl. apply String.eqb_refl.
    + intros i _ Hp.
      destruct (tasks w !! i) as [t|] eqn:Hi; [|done].
      apply andb_true_iff in Hp as [Hrun Hid]. apply String.eqb_eq in Hid.
      destruct (Hok i t Hi Hrun) as (sw' & Hsw' & Htask).
      rewrite Hid in Hsw'. congruence.
  - apply filter_seq_none. intros i _.
    destruct (tasks w !! i) as [t|] eqn:Hi; [|done].
    destruct (task_running t) eqn:Hrun; [|done]. simpl.
    apply String.eqb_neq. intros Hid.
    destruct (Hok i t Hi Hrun) as (sw' & Hsw' & _).
    rewrite Hid in Hsw'. congruence.
Qed.

(** X24. No timer leaks. Starting with no bindings and no timers, after
    any sequence of scheduleWorkflow (valid or not), unscheduleWorkflow,
    updateWorkflowSchedule, initialize and shutdown calls, a workflow that
    is bound has exactly one running timer, the one in its binding, created
    for that workflow with the bound expression, and a workflow that is not
    bound has none. *)
Theorem scheduler_no_timer_leak (validate : string -> bool)
    (ops : list SchedOp) (w0 : World) :
  scheduledWorkflows w0 = ∅ -> tasks w0 = [] ->
  let w := run_sched_ops validate ops w0 in
  forall id,
    match scheduledWorkflows w !! id with
    | Some sw =>
        active_timers id w = [sw_task sw] /\
        tasks w !! sw_task sw = Some (mkCronTask (sw_schedule sw) id true)
    | None => active_timers id w = []
    end.
Proof.
  intros Hb Ht w id.
  assert (sched_inv w) as Hinv.
  { apply sched_inv_ops. split; [by apply sched_ok_no_tasks|].
    intros id' sw H. by rewrite Hb, lookup_empty in H. }
  rewrite (sched_inv_timers id w Hinv).
  destruct (scheduledWorkflows w !! id) as [sw|] eqn:Hsw; [|done].
  split; [done|]. by apply Hinv.
Qed.

Lemma scheduler_no_timer_leak_witness :
  let w := run_sched_ops five_fields
             [OpSchedule "wf1" "*/5 * * * *"; OpSchedule "wf1" "0 9 * * 1";
              OpSchedule "wf2" "bad"; OpUpdate "wf2" (Some "1 2 3 4 5");
              OpInitialize; OpUnschedule "wf2"]
             worldNightly in
  match scheduledWorkflows w !! "wf1" with
  | Some sw =>
      active_timers "wf1" w = [sw_task sw] /\
      tasks w !! sw_task sw = Some (mkCronTask (sw_schedule sw) "wf1" true)
  | None => active_timers "wf1" w = []
  end.
Proof.
  apply (scheduler_no_timer_leak five_fields
           [OpSchedule "wf1" "*/5 * * * *"; OpSchedule "wf1" "0 9 * * 1";
            OpSchedule "wf2" "bad"; OpUpdate "wf2" (Some "1 2 3 4 5");
            OpInitialize; OpUnschedule "wf2"]
           worldNightly eq_refl eq_refl "wf1").
Defined.

(** ** initialize *)

Lemma findManyScheduled_elem (w : World) (id s : string) :
  (id, s) ∈ Scheduler.findManyScheduled w <->
  exists workflow, workflows w !! id = Some workflow /\
                   isActive workflow = true /\ schedule workflow = Some s.
Proof.
  unfold Scheduler.findManyScheduled. rewrite list_elem_of_omap. split.
  - intros ([id' wf] & Hin & Hf). apply elem_of_map_to_list in Hin.
    simpl in Hf. destruct (isActive wf) eqn:Ha; [|done].
    destruct (schedule wf) as [s'|] eqn:Hs; [|done].
    injection Hf as -> ->. by exists wf.
  - intros (wf & Hwf & Ha & Hs). exists (id, wf). split.
    + by apply elem_of_map_to_list.
    + simpl. by rewrite Ha, Hs.
Qed.

Lemma findManyScheduled_NoDup (w : World) :
  NoDup (Scheduler.findManyScheduled w).*1.
Proof.
  unfold Scheduler.findManyScheduled.
  pose proof (NoDup_fst_map_to_list (workflows w)) as Hnd.
  induction (map_to_list (workflows w)) as [|[id wf] l IH]; simpl;
    [constructor|].
  apply NoDup_cons in Hnd as [Hid Hnd].
  destruct (isActive wf); [|by apply IH].
  destruct (schedule wf) as [s|]; [|by apply IH].
  simpl. apply NoDup_cons. split; [|by apply IH].
  intros Hin. apply Hid. simpl.
  apply list_elem_of_fmap in Hin as ([id' s'] & -> & Hin).
  apply list_elem_of_omap in Hin as ([id'' wf'] & Hin & Hf).
  simpl in Hf. destruct (isActive wf'); [|done].
  destruct (schedule wf'); [|done]. injection Hf as -> ->.
  apply list_elem_of_fmap. by exists (id', wf').
Qed.

Lemma initialize_loop_valid (validate : string -> bool)
    (rows : list (string * string)) (w : World) :
  (forall id s, (id, s) ∈ rows -> s <> "" -> validate s = true) ->
  NoDup rows.*1 ->
  exists w',
    Scheduler.initialize_loop validate rows w = (Ret tt, w') /\
    (forall id s, (id, s) ∈ rows -> s <> "" ->
       exists t, scheduledWorkflows w' !! id =
                   Some (mkScheduledWorkflow id id s t)) /\
    (forall id, (forall s, (id, s) ∈ rows -> s = "") ->
       scheduledWorkflows w' !! id = scheduledWorkflows w !! id).
Proof.
  revert w. induction rows as [|[id s] rows IH]; intros w Hvalid Hnd.
  - exists w. split; [done|]. split; [|done].
    intros id s H. by apply elem_of_nil in H.
  - simpl in Hnd. apply NoDup_cons in Hnd as [Hid Hnd].
    assert (forall id' s', (id', s') ∈ rows -> s' <> "" ->
              validate s' = true) as Hvalid'.
    { intros id' s' Hin. apply (Hvalid id' s'). by right. }
    simpl. unfold bind at 1.
    destruct (String.eqb s "") eqn:Hs; simpl.
    + apply String.eqb_eq in Hs as ->.
      destruct (IH w Hvalid' Hnd) as (w' & Hrun & Hbound & Hother).
      exists w'. split; [done|]. split.
      * intros id' s' [[= -> ->]|Hin]%elem_of_cons Hne; [done|].
        by apply Hbound.
      * intros id' Hempty. apply Hother. intros s' Hin.
        apply (Hempty s'). by right.
    + apply String.eqb_neq in Hs.
      rewrite scheduleWorkflow_run by (apply (Hvalid id s); [by left|done]).
      destruct (IH (scheduled id s w) Hvalid' Hnd)
        as (w' & Hrun & Hbound & Hother).
      exists w'. split; [done|]. split.
      * intros id' s' [[= -> ->]|Hin]%elem_of_cons Hne.
        -- exists (length (tasks w)). rewrite Hother.
           ++ destruct w; simpl. apply lookup_insert_eq.
           ++ intros s' Hin. exfalso. apply Hid.
              apply list_elem_of_fmap. by exists (id, s').
        -- by apply Hbound.
      * intros id' Hempty. rewrite Hother.
        -- destruct w; simpl. apply lookup_insert_ne.
           intros ->. apply Hs, (Hempty s). by left.
        -- intros s' Hin. apply (Hempty s'). by right.
Qed.

Lemma initialize_loop_invalid (validate : string -> bool)
    (rows : list (string * string)) (w : World) :
  (exists id s, (id, s) ∈ rows /\ s <> "" /\ validate s = false) ->
  exists s' w',
    Scheduler.initialize_loop validate rows w =
      (Throw (ErrorObj ("Invalid cron expression: " +:+ s')), w') /\
    validate s' = false.
Proof.
  revert w. induction rows as [|[id s] rows IH]; intros w (id0 & s0 & Hin & Hne & Hbad).
  - by apply elem_of_nil in Hin.
  - simpl. unfold bind at 1.
    destruct (String.eqb s "") eqn:Hs; simpl.
    + apply String.eqb_eq in Hs as ->. apply IH.
      apply elem_of_cons in Hin as [[= -> ->]|Hin]; [done|].
      by exists id0, s0.
    + destruct (validate s) eqn:Hv.
      * rewrite scheduleWorkflow_run by done. apply IH.
        apply elem_of_cons in Hin as [[= -> ->]|Hin]; [congruence|].
        by exists id0, s0.
      * unfold Scheduler.scheduleWorkflow. rewrite Hv. simpl.
        by exists s, w.
Qed.

(** X25. When the schedule of every active workflow is valid, initialize
    returns and binds every active workflow that has a non-empty schedule
    to that schedule; a workflow that is missing, inactive, without a
    schedule, or with an empty one keeps the binding it had. *)
Theorem initialize_binds (validate : string -> bool) (w : World) :
  (forall id workflow s,
     workflows w !! id = Some workflow -> isActive workflow = true ->
     schedule workflow = Some s -> s <> "" -> validate s = true) ->
  exists w',
    Scheduler.initialize validate w = (Ret tt, w') /\
    (forall id workflow s,
       workflows w !! id = Some workflow -> isActive workflow = true ->
       schedule workflow = Some s -> s <> "" ->
       exists t, scheduledWorkflows w' !! id =
                   Some (mkScheduledWorkflow id id s t)) /\
    (forall id,
       (forall workflow s,
          workflows w !! id = Some workflow -> isActive workflow = true ->
          schedule workflow = Some s -> s = "") ->
       scheduledWorkflows w' !! id = scheduledWorkflows w !! id).
Proof.
  intros Hvalid. unfold Scheduler.initialize, bind, get_world.
  destruct (initialize_loop_valid validate (Scheduler.findManyScheduled w) w)
    as (w' & Hrun & Hbound & Hother).
  - intros id s (wf & Hwf & Ha & Hs)%findManyScheduled_elem Hne.
    by apply (Hvalid id wf s).
  - apply findManyScheduled_NoDup.
  - exists w'. split; [done|]. split.
    + intros id wf s Hwf Ha Hs Hne. apply Hbound; [|done].
      apply findManyScheduled_elem. by exists wf.
    + intros id Hempty. apply Hother.
      intros s (wf & Hwf & Ha & Hs)%findManyScheduled_elem.
      by apply (Hempty wf s).
Qed.

(** X26. initialize does not skip a malformed schedule: when some active
    workflow has a non-empty schedule that the validator rejects,
    initialize throws 'Invalid cron expression: ...' for a rejected
    schedule instead of returning. *)
Theorem initialize_rejects (validate : string -> bool) (w : World) :
  (exists id workflow s,
     workflows w !! id = Some workflow /\ isActive workflow = true /\
     schedule workflow = Some s /\ s <> "" /\ validate s = false) ->
  exists s' w',
    Scheduler.initialize validate w =
      (Throw (ErrorObj ("Invalid cron expression: " +:+ s')), w') /\
    validate s' = false.
Proof.
  intros (id & wf & s & Hwf & Ha & Hs & Hne & Hbad).
  unfold Scheduler.initialize, bind, get_world.
  apply initialize_loop_invalid. exists id, s. split; [|done].
  apply findManyScheduled_elem. by exists wf.
Qed.

Lemma initialize_binds_witness :
  exists w' t,
    Scheduler.initialize five_fields worldNightly = (Ret tt, w') /\
    scheduledWorkflows w' !! "wf1" =
      Some (mkScheduledWorkflow "wf1" "wf1" "0 2 * * *" t) /\
    scheduledWorkflows w' !! "wf2" = None.
Proof.
  destruct (initialize_binds five_fields worldNightly)
    as (w' & Hrun & Hbound & Hother).
  - intros id wf s Hwf Ha Hs _. simpl in Hwf.
    apply lookup_insert_Some in Hwf as [[<- <-]|[_ Hwf]].
    + by injection Hs as <-.
    + by apply lookup_singleton_Some in Hwf as [<- <-].
  - destruct (Hbound "wf1" workflowNightly "0 2 * * *") as [t Ht];
      [reflexivity|reflexivity|reflexivity|discriminate|].
    exists w', t. split; [exact Hrun|]. split; [exact Ht|].
    rewrite (Hother "wf2").
    + assert (scheduledWorkflows worldNightly = ∅) as -> by reflexivity.
      apply lookup_empty.
    + intros wf s Hwf Ha Hs.
      assert (workflows worldNightly !! "wf2" = Some workflowInactive)
        as Hk by reflexivity.
      rewrite Hk in Hwf. injection Hwf as <-. discriminate.
Defined.

Lemma initialize_rejects_witness :
  exists s' w',
    Scheduler.initialize five_fields worldBroken =
      (Throw (ErrorObj ("Invalid cron expression: " +:+ s')), w') /\
    five_fields s' = false.
Proof.
  apply (initialize_rejects five_fields worldBroken).
  exists "wf3", workflowBroken, "every night". by vm_compute.
Defined.

Lemma sendWorkflowNotification_posts_witness :
  (exists r text blocks,
     SlackService.sendWorkflowNotification sample_ToString
       sample_toUpperCase sample_toLocaleString sample_JSON_stringify
       sample_TypeError (VStr "nightly") (VStr "success") VUndefined
       worldSlackUp =
       (Ret r,
        emit (EvPost (mkPostArgs (VStr "#alerts") (VStr text) (VArr blocks)
                                 VUndefined)) worldSlackUp) /\
     length blocks = 3) /\
  SlackService.sendWorkflowNotification sample_ToString
    sample_toUpperCase sample_toLocaleString sample_JSON_stringify
    sample_TypeError (VStr "nightly") (VStr "success") VUndefined world0 =
    (Ret (SlackService.mkSendResult false VUndefined
            (VStr "Slack not configured")), world0) /\
  SlackService.sendWorkflowNotification sample_ToString
    sample_toUpperCase sample_toLocaleString sample_JSON_stringify
    sample_TypeError (VStr "nightly") (VNum 1) VUndefined worldSlackUp =
    (Throw (ErrorObj (sample_TypeError (VNum 1))), worldSlackUp).
Proof.
  split; [|split].
  - exact (proj1 (sendWorkflowNotification_posts sample_ToString
                    sample_toUpperCase sample_toLocaleString
                    sample_JSON_stringify sample_TypeError
                    (VStr "nightly") (VStr "success") VUndefined
                    worldSlackUp) "success" eq_refl).
  - exact (proj1 (sendWorkflowNotification_posts sample_ToString
                    sample_toUpperCase sample_toLocaleString
                    sample_JSON_stringify sample_TypeError
                    (VStr "nightly") (VStr "success") VUndefined world0)
             "success" eq_refl).
  - exact (proj2 (sendWorkflowNotification_posts sample_ToString
                    sample_toUpperCase sample_toLocaleString
                    sample_JSON_stringify sample_TypeError
                    (VStr "nightly") (VNum 1) VUndefined worldSlackUp)
             eq_refl).
Defined.

Lemma send_POST_custom_witness :
  exists r,
    SlackSendRoute.POST sample_ToString sample_toUpperCase
      sample_toLocaleString sample_JSON_stringify sample_TypeError
      VUndefined (VStr "hello") VUndefined VUndefined VUndefined
      worldSlackUp =
      (Ret r,
       emit (EvPost (mkPostArgs (VStr "#alerts") (VStr "hello") VUndefined
                                VUndefined)) worldSlackUp) /\
    r = Route.mkResponse 200
          [("success", VBool true);
           ("message", VStr "Message sent successfully");
           ("timestamp", VStr "1700000000.000100")].
Proof.
  apply (send_POST_custom sample_ToString sample_toUpperCase
           sample_toLocaleString sample_JSON_stringify sample_TypeError
           VUndefined (VStr "hello") VUndefined VUndefined VUndefined
           worldSlackUp _ _ eq_refl eq_refl eq_refl eq_refl).
Defined.

Lemma send_POST_notification_ignores_witness :
  SlackSendRoute.POST sample_ToString sample_toUpperCase
    sample_toLocaleString sample_JSON_stringify sample_TypeError
    (VStr "#ops") (VStr "first") (VStr "nightly") (VStr "error") VUndefined
    worldSlackUp =
  SlackSendRoute.POST sample_ToString sample_toUpperCase
    sample_toLocaleString sample_JSON_stringify sample_TypeError
    VUndefined (VStr "second") (VStr "nightly") (VStr "error") VUndefined
    worldSlackUp.
Proof.
  apply (send_POST_notification_ignores sample_ToString sample_toUpperCase
           sample_toLocaleString sample_JSON_stringify sample_TypeError);
    reflexivity.
Defined.

Lemma send_POST_status_not_string_witness :
  SlackSendRoute.POST sample_ToString sample_toUpperCase
    sample_toLocaleString sample_JSON_stringify sample_TypeError
    VUndefined (VStr "hello") (VStr "nightly") (VNum 1) VUndefined
    worldSlackUp =
    (Ret (Route.mkResponse 500
            [("error", VStr "Failed to send Slack message")]), worldSlackUp).
Proof.
  apply (send_POST_status_not_string sample_ToString sample_toUpperCase
           sample_toLocaleString sample_JSON_stringify sample_TypeError
           VUndefined (VStr "hello") (VStr "nightly") (VNum 1) VUndefined
           worldSlackUp _ _ eq_refl eq_refl eq_refl eq_refl eq_refl eq_refl).
Defined.

(** ** The database stub *)


Example round_binary64_up :
  (2161727821137838 * 100 / 2 ^ 53 = 23)%Z /\
  (round_binary64 (2161727821137838 * 100) / 2 ^ 53 = 24)%Z.
Proof. split; reflexivity. Qed.



Example executeDatabase_rounds :
  obj_get "records" <$>
    match (Handlers.executeDatabase nodeB [] worldDraw).1 with
    | Ret o => Some o
    | _ => None
    end = Some (VNum 24).
Proof. reflexivity. Qed.
